(** * angelcardus: webhook receiver and Playwright page objects

    A shallow embedding of the JavaScript sources
      - [ui/webhooks/server.js]     (signature check and the three routes),
      - [ui/pages/BasePage.js]      (visibility helper, cookie handling),
      - [ui/pages/PlatformPage.js]  (login options, cookie-consent probe),
      - [ui/pages/HomePage.js]      (logo, policy-link and platform-entry clicks),
      - [ui/tests]                  (the home-page hook, the email guard),
    followed by the properties proved about them.

    Asynchronous functions run one [await] after another, so they are
    modelled in a state-and-exception monad: a rejected promise is a thrown
    [JsError], [p.catch(h)] and [try/catch] are [catch].  The state is the
    page together with a trace of the calls made and the lines logged.

    What lies outside the repository is a parameter of the code: the
    browser driven through Playwright is an abstract interface ([Browser]),
    Node's HMAC a function argument of the server, the lower-casing done
    by the page's JavaScript engine a function argument of the cookie
    handler.  The first two have one concrete instance on which the code
    is run on explicit inputs: [Scripted], a browser that follows
    Playwright's strictness rule, and [NodeCrypto], HMAC-SHA256 itself; the
    examples, whose texts are ASCII, run with the lower-casing of ASCII
    text. *)

From Stdlib Require Import String Ascii List Bool Arith NArith DecimalString.
From ExtLib Require Import Structures.Monad Structures.MonadExc.
Import ListNotations.
Import MonadNotation.
Local Open Scope string_scope.
Local Open Scope monad_scope.
#[local] Set Warnings "-register-all".


(* ===================================================================== *)
(** * JavaScript values, strings and errors *)
(* ===================================================================== *)

Module Js.

(** A thrown value: every error the sources create or receive is an
    [Error] object, of which the code reads [name] (its class) and
    [message]. *)
Record JsError : Type := mkError { name : string; message : string }.

(** [new Error(msg)] *)
Definition Error (msg : string) : JsError := mkError "Error" msg.
(** What the runtime throws on [undefined.x] or on an object that has
    no primitive value. *)
Definition TypeError (msg : string) : JsError := mkError "TypeError" msg.

(** Result of evaluating an expression or of awaiting a promise. *)
Inductive Outcome (A : Type) : Type :=
| Ok (a : A)
| Throw (e : JsError).
Arguments Ok {A} a.
Arguments Throw {A} e.

Definition isOk {A} (o : Outcome A) : bool :=
  match o with Ok _ => true | Throw _ => false end.

(** ** Strings *)

(** The double-quote character; literals below write ['] where the
    source text has a double quote, and [dq] puts it back. *)
Definition dquote : ascii := ascii_of_nat 34.

Fixpoint dq (s : string) : string :=
  match s with
  | EmptyString => EmptyString
  | String c r => String (if Ascii.eqb c "'" then dquote else c) (dq r)
  end.

(** [hay.includes(needle)].  A string of the model is a sequence of 8-bit
    units; text outside ASCII is held in UTF-8, in which a search for an
    ASCII needle finds what JavaScript's search over code units finds. *)
Fixpoint includes (hay needle : string) : bool :=
  prefix needle hay ||
  match hay with
  | EmptyString => false
  | String _ r => includes r needle
  end.

(** [hay.endsWith(suffix)] *)
Fixpoint endsWith (hay suffix : string) : bool :=
  String.eqb hay suffix ||
  match hay with
  | EmptyString => false
  | String _ r => endsWith r suffix
  end.

Definition lowerChar (c : ascii) : ascii :=
  let n := nat_of_ascii c in
  if Nat.leb 65 n && Nat.leb n 90 then ascii_of_nat (n + 32) else c.

(** [s.toLowerCase()] on a string of ASCII characters, where it folds the
    letters A-Z and nothing else.  That is what the code run by Node
    applies it to (the names of the login options, all ASCII constants).
    The text of a page may hold any character, and JavaScript folds every
    cased letter of Unicode (the Kelvin sign to k, for one): the
    lower-casing applied to page text is a parameter of [BasePage]. *)
Fixpoint toLowerCase (s : string) : string :=
  match s with
  | EmptyString => EmptyString
  | String c r => String (lowerChar c) (toLowerCase r)
  end.

(** [String(n)] for a natural number. *)
Definition decimal (n : nat) : string := NilEmpty.string_of_uint (Nat.to_uint n).

Fixpoint join (sep : string) (parts : list string) : string :=
  match parts with
  | [] => ""
  | [p] => p
  | p :: rest => p ++ sep ++ join sep rest
  end.

(** ** Regular expressions

    The fragment used by [clickAngelCardLogo]: literal characters, [.],
    [.*], an optional literal and the end anchor [$]. *)
Inductive ReAtom : Type :=
| Lit (c : ascii)       (* c, or an escaped \c *)
| Dot                   (* .   any character but a line terminator *)
| DotStar               (* .*  *)
| OptLit (c : ascii)    (* c?  *)
| Eoi.                  (* $   (no m flag: end of input) *)

Definition RegExp := list ReAtom.

Definition lineTerminator (c : ascii) : bool :=
  let n := nat_of_ascii c in Nat.eqb n 10 || Nat.eqb n 13.

(** Does the pattern match a prefix of [s]? (backtracking, as the engine
    does; for a yes/no answer greediness is irrelevant). *)
Fixpoint matchHere (re : RegExp) : string -> bool :=
  match re with
  | [] => fun _ => true
  | Lit c :: re' => fun s =>
      match s with
      | String d r => Ascii.eqb c d && matchHere re' r
      | EmptyString => false
      end
  | Dot :: re' => fun s =>
      match s with
      | String d r => negb (lineTerminator d) && matchHere re' r
      | EmptyString => false
      end
  | DotStar :: re' =>
      fix star (s : string) : bool :=
        matchHere re' s ||
        match s with
        | String d r => negb (lineTerminator d) && star r
        | EmptyString => false
        end
  | OptLit c :: re' => fun s =>
      match s with
      | String d r => (Ascii.eqb c d && matchHere re' r) || matchHere re' s
      | EmptyString => matchHere re' s
      end
  | Eoi :: re' => fun s =>
      match s with
      | EmptyString => matchHere re' s
      | String _ _ => false
      end
  end.

(** [s.match(re)] used as a condition (non-null): the pattern is tried at
    every start position. *)
Fixpoint test (re : RegExp) (s : string) : bool :=
  matchHere re s ||
  match s with
  | EmptyString => false
  | String _ r => test re r
  end.

Fixpoint lits (s : string) : RegExp :=
  match s with
  | EmptyString => []
  | String c r => Lit c :: lits r
  end.

(** ** JSON values

    What [express.json()] leaves in [req.body].  A finite number is kept
    as its JavaScript rendering (what both [JSON.stringify] and
    [String(n)] print), which is all the code uses of it.  A number
    literal too large for a double parses to an infinity, which
    [JSON.stringify] prints as [null] and a template literal as
    [Infinity] or [-Infinity].  An object lists its own properties in
    enumeration order. *)
Inductive JSON : Type :=
| JNull
| JBool (b : bool)
| JNumber (repr : string)
| JInfinite (negative : bool)
| JString (s : string)
| JArray (items : list JSON)
| JObject (props : list (string * JSON)).

(** A JavaScript value read by the handlers: a JSON value or
    [undefined]. *)
Definition Value := option JSON.
Definition undefined : Value := None.

Fixpoint lookup (key : string) (props : list (string * JSON)) : Value :=
  match props with
  | [] => None
  | (k, v) :: rest => if String.eqb k key then Some v else lookup key rest
  end.

Definition hasOwn (key : string) (props : list (string * JSON)) : bool :=
  match lookup key props with Some _ => true | None => false end.

(** [v.key] for a key that no built-in prototype defines (all the keys
    the handlers read are such): the own property of an object,
    [undefined] on arrays and primitives, a [TypeError] on [null] and
    [undefined]. *)
Definition getProp (v : Value) (key : string) : Outcome Value :=
  match v with
  | None =>
      Throw (TypeError ("Cannot read properties of undefined (reading '" ++ key ++ "')"))
  | Some JNull =>
      Throw (TypeError ("Cannot read properties of null (reading '" ++ key ++ "')"))
  | Some (JObject props) => Ok (lookup key props)
  | Some _ => Ok undefined
  end.

(** [const { key } = v]: as [v.key], with the message of a failed
    destructuring. *)
Definition destructure (v : Value) (key : string) : Outcome Value :=
  match v with
  | None | Some JNull =>
      Throw (TypeError ("Cannot destructure property '" ++ key ++ "'"))
  | Some (JObject props) => Ok (lookup key props)
  | Some _ => Ok undefined
  end.

Definition cannotConvert : JsError :=
  TypeError "Cannot convert object to primitive value".

(** [String(v)] as a template literal computes it.  An array joins its
    items with commas ([null] items print as nothing).  A plain object
    prints as [[object Object]]; one with an own [toString] property
    hides [Object.prototype.toString] behind a value that cannot be
    called, and [valueOf] yields no primitive: a [TypeError]. *)
Fixpoint ToStringJSON (v : JSON) : Outcome string :=
  match v with
  | JNull => Ok "null"
  | JBool true => Ok "true"
  | JBool false => Ok "false"
  | JNumber repr => Ok repr
  | JInfinite false => Ok "Infinity"
  | JInfinite true => Ok "-Infinity"
  | JString s => Ok s
  | JArray items =>
      let items_to_string :=
        fix items_to_string (l : list JSON) : Outcome (list string) :=
          match l with
          | [] => Ok []
          | x :: rest =>
              match (match x with JNull => Ok "" | _ => ToStringJSON x end) with
              | Throw e => Throw e
              | Ok s =>
                  match items_to_string rest with
                  | Throw e => Throw e
                  | Ok ss => Ok (s :: ss)
                  end
              end
          end in
      match items_to_string items with
      | Ok ss => Ok (join "," ss)
      | Throw e => Throw e
      end
  | JObject props =>
      if hasOwn "toString" props then Throw cannotConvert
      else Ok "[object Object]"
  end.

Definition ToString (v : Value) : Outcome string :=
  match v with
  | None => Ok "undefined"
  | Some j => ToStringJSON j
  end.

(** ** [JSON.stringify]

    On the values above it cannot throw (no cycles, no [toJSON]
    functions, no BigInt) and prints no white space. *)
Definition hexDigit (n : nat) : ascii :=
  ascii_of_nat (if Nat.ltb n 10 then 48 + n else 87 + n).

Definition backslash : ascii := ascii_of_nat 92.

Definition escapeChar (c : ascii) : string :=
  let n := nat_of_ascii c in
  let esc (t : string) := String backslash t in
  if Nat.eqb n 34 then esc (String dquote "")
  else if Nat.eqb n 92 then esc (String backslash "")
  else if Nat.eqb n 8 then esc "b"
  else if Nat.eqb n 9 then esc "t"
  else if Nat.eqb n 10 then esc "n"
  else if Nat.eqb n 12 then esc "f"
  else if Nat.eqb n 13 then esc "r"
  else if Nat.ltb n 32 then
    esc ("u00" ++ String (hexDigit (n / 16)) (String (hexDigit (n mod 16)) ""))
  else String c "".

Fixpoint escape (s : string) : string :=
  match s with
  | EmptyString => ""
  | String c r => escapeChar c ++ escape r
  end.

Definition quote (s : string) : string :=
  String dquote (escape s ++ String dquote "").

Fixpoint JSON_stringify (v : JSON) : string :=
  match v with
  | JNull => "null"
  | JBool true => "true"
  | JBool false => "false"
  | JNumber repr => repr
  | JInfinite _ => "null"
  | JString s => quote s
  | JArray items =>
      "[" ++ join "," (map JSON_stringify items) ++ "]"
  | JObject props =>
      "{" ++ join "," (map (fun kv => quote (fst kv) ++ ":" ++ JSON_stringify (snd kv)) props)
          ++ "}"
  end.

End Js.
Import Js.

(* ===================================================================== *)
(** * Asynchronous code: state and exceptions *)
(* ===================================================================== *)

(** The logger of [ui/utils/logger.js] ([winston]): a call appends one
    entry and never throws. *)
Inductive Level : Type := INFO | WARN | ERROR.

Definition LogEntry : Type := (Level * string)%type.

Class Logging (St : Type) : Type :=
  { appendLog : LogEntry -> St -> St;
    logsOf : St -> list LogEntry }.

Module Async.

(** An [async] function body over a state [St]: it ends with a value or
    with a thrown error, and what it did to the state before throwing
    stays done. *)
Definition M (St A : Type) : Type := St -> Outcome A * St.

#[export] Instance Monad_M {St} : Monad (M St) :=
  {| ret := fun _ a s => (Ok a, s);
     bind := fun _ _ m k s =>
               match m s with
               | (Ok a, s') => k a s'
               | (Throw e, s') => (Throw e, s')
               end |}.

(** [raise e] is [throw e]; [catch m h] is [try { m } catch (e) { h }],
    and also [m.catch(h)] on a promise. *)
#[export] Instance Exc_M {St} : MonadExc JsError (M St) :=
  {| raise := fun _ e s => (Throw e, s);
     catch := fun _ m h s =>
                match m s with
                | (Throw e, s') => h e s'
                | r => r
                end |}.

(** An expression evaluated without touching the state. *)
Definition lift {St A} (o : Outcome A) : M St A := fun s => (o, s).

(** [p.catch(() => v)] *)
Definition orElse {St A} (m : M St A) (v : A) : M St A :=
  catch m (fun _ => ret v).

Definition logAt {St} `{Logging St} (lvl : Level) (msg : string) : M St unit :=
  fun s => (Ok tt, appendLog (lvl, msg) s).

End Async.
Import Async.

(** [logger.info(msg)], [logger.warn(msg)], [logger.error(msg)] *)
Module logger.
Definition info {St} `{Logging St} : string -> M St unit := logAt INFO.
Definition warn {St} `{Logging St} : string -> M St unit := logAt WARN.
Definition error {St} `{Logging St} : string -> M St unit := logAt ERROR.
End logger.

#[export] Instance Logging_list : Logging (list LogEntry) :=
  {| appendLog := fun e l => (l ++ [e])%list; logsOf := fun l => l |}.

(* ===================================================================== *)
(** * ui/webhooks/server.js *)
(* ===================================================================== *)

Module Server.

(** [process.env.NAME || fallback]: an unset or empty variable gives the
    fallback. *)
Definition envOr (env : string -> option string) (var fallback : string) : string :=
  match env var with
  | Some v => if String.eqb v "" then fallback else v
  | None => fallback
  end.

Definition WEBHOOK_SECRET_of (env : string -> option string) : string :=
  envOr env "WEBHOOK_SECRET" "default_secret".

(** A request that carries a JSON text (or no body at all, which leaves
    [req.body] the empty object): [body] is the value of that text, and
    is [req.body] once [express.json()] has let the request through. *)
Record Request : Type :=
  { headers : string -> option string;   (* req.headers[name] *)
    body : JSON }.                       (* req.body, parsed by express.json() *)

Inductive Payload : Type :=
| Json (j : JSON)                        (* res.json(j) *)
| ErrorPage.                             (* Express's own error page *)

Record Response : Type := { status : nat; payload : Payload }.

(** [app.use(express.json())], in its default strict mode: a JSON text
    whose value is not an object or an array is refused, and only objects
    and arrays ever reach a handler as [req.body]. *)
Definition strictJson (b : JSON) : bool :=
  match b with JObject _ | JArray _ => true | _ => false end.

(** Express's default route matching ([case sensitive routing] and
    [strict routing] both off): the request path matches a route path
    whatever the case of its letters, with or without one final slash. *)
Definition matches (routePath path : string) : bool :=
  String.eqb (toLowerCase path) (toLowerCase routePath)
  || String.eqb (toLowerCase path) (toLowerCase routePath ++ "/").

Section WithSecret.

(** [createHmac('sha256', key).update(msg).digest('hex')] of Node's
    [crypto] module. *)
Variable hmacSha256Hex : string -> string -> string.

(** The module constant [WEBHOOK_SECRET]. *)
Variable WEBHOOK_SECRET : string.

Definition verifySignature (signature : string) (payload : JSON) : bool :=
  let digest := "sha256=" ++ hmacSha256Hex WEBHOOK_SECRET (JSON_stringify payload) in
  String.eqb signature digest.

(** [!signature || !verifySignature(signature, req.body)] *)
Definition rejected (req : Request) : bool :=
  match headers req "x-webhook-signature" with
  | None => true
  | Some signature =>
      String.eqb signature "" || negb (verifySignature signature (body req))
  end.

Definition invalidSignature : Response :=
  {| status := 401;
     payload := Json (JObject [("error", JString "Invalid signature")]) |}.

Definition success : Response :=
  {| status := 200; payload := Json (JObject [("status", JString "success")]) |}.

(** A route handler: it logs, and answers or throws. *)
Definition Handler := M (list LogEntry).

(** [app.post('/webhook/test-results', ...)] *)
Definition postTestResults (req : Request) : Handler Response :=
  if rejected req then
    logger.warn "Invalid webhook signature";;
    ret invalidSignature
  else
    testResults <- lift (destructure (Some (body req)) "testResults");;
    buildId <- lift (destructure (Some (body req)) "buildId");;
    runId <- lift (destructure (Some (body req)) "runId");;
    b <- lift (ToString buildId);;
    r <- lift (ToString runId);;
    logger.info ("Received test results webhook for build " ++ b ++ ", run " ++ r);;
    summary <- lift (getProp testResults "summary");;
    s <- lift (ToString summary);;
    logger.info ("Test summary: " ++ s);;
    ret success.

(** [app.post('/webhook/ci-trigger', ...)] *)
Definition postCiTrigger (req : Request) : Handler Response :=
  if rejected req then
    logger.warn "Invalid webhook signature";;
    ret invalidSignature
  else
    repository <- lift (destructure (Some (body req)) "repository");;
    branch <- lift (destructure (Some (body req)) "branch");;
    commit <- lift (destructure (Some (body req)) "commit");;
    action <- lift (destructure (Some (body req)) "action");;
    rp <- lift (ToString repository);;
    br <- lift (ToString branch);;
    cm <- lift (ToString commit);;
    logger.info ("Received CI trigger webhook for " ++ rp ++ "/" ++ br ++ " (" ++ cm ++ ")");;
    ac <- lift (ToString action);;
    logger.info ("Action: " ++ ac);;
    ret success.

(** [app.get('/health', ...)] *)
Definition getHealth (req : Request) : Handler Response :=
  ret {| status := 200; payload := Json (JObject [("status", JString "healthy")]) |}.

(** The two methods the routes are registered for.  (Requests by other
    methods, which Express answers itself, are not modelled.) *)
Inductive Method : Type := GET | POST.

(** The three routes of [app], in the order they are registered. *)
Definition route (m : Method) (path : string) : option (Request -> Handler Response) :=
  match m with
  | POST =>
      if matches "/webhook/test-results" path then Some postTestResults
      else if matches "/webhook/ci-trigger" path then Some postCiTrigger
      else None
  | GET =>
      if matches "/health" path then Some getHealth else None
  end.

Definition badRequest : Response := {| status := 400; payload := ErrorPage |}.

(** The application: the body parser first, then the routes.  A body the
    parser refuses is answered 400, a handler that throws is answered by
    Express's default error handler (500), a path without a route by its
    404. *)
Definition app (m : Method) (path : string) (req : Request)
  : Response * list LogEntry :=
  if negb (strictJson (body req)) then (badRequest, [])
  else
    match route m path with
    | None => ({| status := 404; payload := ErrorPage |}, [])
    | Some handler =>
        match handler req [] with
        | (Ok res, logs) => (res, logs)
        | (Throw _, logs) => ({| status := 500; payload := ErrorPage |}, logs)
        end
    end.

End WithSecret.

End Server.

(* ===================================================================== *)
(** * Node's crypto: HMAC-SHA256 *)
(* ===================================================================== *)

(** A model of [createHmac('sha256', key).update(msg).digest('hex')]
    (FIPS 180-4 and RFC 2104) on byte strings.  The server code is
    parametric in it; this instance runs the server on explicit requests. *)
Module NodeCrypto.

Local Open Scope N_scope.

Definition word (x : N) : N := N.land x 4294967295.
Definition plus32 (x y : N) : N := word (x + y).
Definition rotr (n x : N) : N := N.lor (N.shiftr x n) (word (N.shiftl x (32 - n))).

Definition choose (x y z : N) : N :=
  N.lxor (N.land x y) (N.land (N.lxor x 4294967295) z).
Definition majority (x y z : N) : N :=
  N.lxor (N.lxor (N.land x y) (N.land x z)) (N.land y z).
Definition bigSigma0 (x : N) : N := N.lxor (N.lxor (rotr 2 x) (rotr 13 x)) (rotr 22 x).
Definition bigSigma1 (x : N) : N := N.lxor (N.lxor (rotr 6 x) (rotr 11 x)) (rotr 25 x).
Definition smallSigma0 (x : N) : N := N.lxor (N.lxor (rotr 7 x) (rotr 18 x)) (N.shiftr x 3).
Definition smallSigma1 (x : N) : N := N.lxor (N.lxor (rotr 17 x) (rotr 19 x)) (N.shiftr x 10).

Definition hexValue (c : ascii) : N :=
  let n := N_of_ascii c in
  if n <? 58 then n - 48 else n - 87.

(** Words written as groups of hexadecimal digits separated by blanks. *)
Fixpoint hexWords (acc : N) (s : string) : list N :=
  match s with
  | EmptyString => [acc]
  | String c r =>
      if Ascii.eqb c " " then acc :: hexWords 0 r
      else hexWords (16 * acc + hexValue c) r
  end.

Definition roundConstants : list N :=
  hexWords 0
    ("428a2f98 71374491 b5c0fbcf e9b5dba5 3956c25b 59f111f1 923f82a4 ab1c5ed5 " ++
     "d807aa98 12835b01 243185be 550c7dc3 72be5d74 80deb1fe 9bdc06a7 c19bf174 " ++
     "e49b69c1 efbe4786 0fc19dc6 240ca1cc 2de92c6f 4a7484aa 5cb0a9dc 76f988da " ++
     "983e5152 a831c66d b00327c8 bf597fc7 c6e00bf3 d5a79147 06ca6351 14292967 " ++
     "27b70a85 2e1b2138 4d2c6dfc 53380d13 650a7354 766a0abb 81c2c92e 92722c85 " ++
     "a2bfe8a1 a81a664b c24b8b70 c76c51a3 d192e819 d6990624 f40e3585 106aa070 " ++
     "19a4c116 1e376c08 2748774c 34b0bcb5 391c0cb3 4ed8aa4a 5b9cca4f 682e6ff3 " ++
     "748f82ee 78a5636f 84c87814 8cc70208 90befffa a4506ceb bef9a3f7 c67178f2")%string.

Definition initialHash : list N :=
  hexWords 0
    "6a09e667 bb67ae85 3c6ef372 a54ff53a 510e527f 9b05688c 1f83d9ab 5be0cd19".

(** One round: the working variables [a..h] and the rolling window of
    the last sixteen schedule words. *)
Definition round (st : list N * list N) (k : N) : list N * list N :=
  match st with
  | ([a; b; c; d; e; f; g; h], (w0 :: w1 :: _) as win) =>
      let w9 := nth 9 win 0 in
      let w14 := nth 14 win 0 in
      let t1 := plus32 (plus32 (plus32 (plus32 h (bigSigma1 e)) (choose e f g)) k) w0 in
      let t2 := plus32 (bigSigma0 a) (majority a b c) in
      let next := plus32 (plus32 (plus32 (smallSigma1 w14) w9) (smallSigma0 w1)) w0 in
      ([plus32 t1 t2; a; b; c; plus32 d t1; e; f; g], (tl win ++ [next])%list)
  | _ => st
  end.

Fixpoint zipPlus (xs ys : list N) : list N :=
  match xs, ys with
  | x :: xs', y :: ys' => plus32 x y :: zipPlus xs' ys'
  | _, _ => []
  end.

Definition compress (hash block : list N) : list N :=
  zipPlus hash (fst (fold_left round roundConstants (hash, block))).

Fixpoint bigEndianWords (bytes : list N) : list N :=
  match bytes with
  | b0 :: b1 :: b2 :: b3 :: rest =>
      (16777216 * b0 + 65536 * b1 + 256 * b2 + b3) :: bigEndianWords rest
  | _ => []
  end.

Definition wordBytes (x : N) : list N :=
  [N.shiftr x 24; N.land (N.shiftr x 16) 255; N.land (N.shiftr x 8) 255; N.land x 255].

Definition padding (len : nat) : list N :=
  let zeros := ((64 - (len + 9) mod 64) mod 64)%nat in
  let bits := 8 * N.of_nat len in
  (128 :: repeat 0 zeros ++ wordBytes (N.shiftr bits 32) ++ wordBytes (word bits))%list.

(** Hash the words sixteen at a time ([n] bounds the number of blocks). *)
Fixpoint blocks (n : nat) (hash ws : list N) : list N :=
  match n, ws with
  | S n', _ :: _ => blocks n' (compress hash (firstn 16 ws)) (skipn 16 ws)
  | _, _ => hash
  end.

Definition sha256 (msg : list N) : list N :=
  let ws := bigEndianWords (msg ++ padding (length msg)) in
  flat_map wordBytes (blocks (length ws) initialHash ws).

Definition hmacKey (key : list N) : list N :=
  let k := if Nat.ltb 64 (length key) then sha256 key else key in
  (k ++ repeat 0 (64 - length k)%nat)%list.

Definition hmacSha256 (key msg : list N) : list N :=
  let k := hmacKey key in
  sha256 (map (N.lxor 92) k ++ sha256 (map (N.lxor 54) k ++ msg)).

Fixpoint bytesOf (s : string) : list N :=
  match s with
  | EmptyString => []
  | String c r => N_of_ascii c :: bytesOf r
  end.

Fixpoint hex (bytes : list N) : string :=
  match bytes with
  | [] => ""%string
  | b :: rest =>
      String (hexDigit (N.to_nat (b / 16)))
        (String (hexDigit (N.to_nat (b mod 16))) (hex rest))
  end.

Definition sha256Hex (msg : string) : string := hex (sha256 (bytesOf msg)).

Definition hmacSha256Hex (key msg : string) : string :=
  hex (hmacSha256 (bytesOf key) (bytesOf msg)).

End NodeCrypto.


(* ===================================================================== *)
(** * The browser, as Playwright exposes it *)
(* ===================================================================== *)

Module Playwright.

(** The [name] option of [getByRole]. *)
Inductive NamePattern : Type :=
| NameRegex (source flags : string)      (* name: /source/flags *)
| NameText (text : string).              (* name: 'text' *)

(** Locators are descriptions, built without touching the page. *)
Inductive Locator : Type :=
| locator (selector : string)                    (* page.locator(selector) *)
| getByRole (role : string) (name : NamePattern) (* page.getByRole(role, { name }) *)
| first (l : Locator)                            (* l.first() *)
| nth (l : Locator) (i : nat)                    (* l.nth(i) *)
| within (parent : Locator) (selector : string). (* parent.locator(selector) *)

(** The capability surface the page objects consume.  Probes ([count],
    [isVisible], reading the text or the address, a screenshot) answer
    from the page as it stands and may fail; actions and waits also
    yield the page that results.  ([isVisible] accepts a [timeout]
    option that Playwright ignores; it is left out.) *)
Record Browser : Type :=
  { Page : Type;
    pw_count : Page -> Locator -> Outcome nat;
    pw_isVisible : Page -> Locator -> Outcome bool;
    pw_click : Page -> Locator -> Outcome unit * Page;
    (* document.body.innerText, read inside page.evaluate *)
    pw_innerText : Page -> Outcome string;
    pw_screenshot : Page -> string -> Outcome unit;
    pw_url : Page -> string;
    pw_goto : Page -> string -> Outcome unit * Page;
    pw_waitForLoadState : Page -> string -> Outcome unit * Page;
    (* page.waitForSelector(selector, { state: 'visible', timeout }) *)
    pw_waitForSelector : Page -> string -> nat -> Outcome unit * Page;
    (* Promise.race of two waitForSelector calls, each with its
       rejection swallowed: it cannot reject *)
    pw_raceSelectors : Page -> string -> string -> nat -> Page }.

(** What a run did, in order: the calls made to the browser and the
    lines logged. *)
Inductive Event : Type :=
| Logged (e : LogEntry)
| Counted (l : Locator)
| Probed (l : Locator)
| Clicked (l : Locator)
| Evaluated
| Screenshot (path : string)
| ReadUrl
| Goto (url : string)
| WaitedLoadState (state : string)
| WaitedSelector (selector : string)
| Raced (s1 s2 : string).

Record World (B : Browser) : Type :=
  { page : Page B; trace : list Event }.
Arguments page {B} w.
Arguments trace {B} w.

Definition record {B} (e : Event) (w : World B) : World B :=
  {| page := page w; trace := (trace w ++ [e])%list |}.

Fixpoint logged (t : list Event) : list LogEntry :=
  match t with
  | [] => []
  | Logged e :: r => e :: logged r
  | _ :: r => logged r
  end.

#[export] Instance Logging_World {B} : Logging (World B) :=
  {| appendLog := fun e w => record (Logged e) w;
     logsOf := fun w => logged (trace w) |}.

Section Calls.
Variable B : Browser.

Definition probe {A} (e : Event) (f : Page B -> Outcome A) : M (World B) A :=
  fun w => (f (page w), record e w).

Definition act (e : Event) (f : Page B -> Outcome unit * Page B)
  : M (World B) unit :=
  fun w => let '(r, p) := f (page w) in
           (r, {| page := p; trace := (trace w ++ [e])%list |}).

Definition count (l : Locator) : M (World B) nat :=
  probe (Counted l) (fun p => pw_count B p l).
Definition isVisible (l : Locator) : M (World B) bool :=
  probe (Probed l) (fun p => pw_isVisible B p l).
Definition click (l : Locator) : M (World B) unit :=
  act (Clicked l) (fun p => pw_click B p l).
(** [page.evaluate(() => f(document.body.innerText))] *)
Definition evaluate {A} (f : string -> A) : M (World B) A :=
  probe Evaluated (fun p => match pw_innerText B p with
                            | Ok t => Ok (f t)
                            | Throw e => Throw e
                            end).
Definition screenshot (path : string) : M (World B) unit :=
  probe (Screenshot path) (fun p => pw_screenshot B p path).
Definition url : M (World B) string :=
  probe ReadUrl (fun p => Ok (pw_url B p)).
Definition goto (u : string) : M (World B) unit :=
  act (Goto u) (fun p => pw_goto B p u).
Definition waitForLoadState (state : string) : M (World B) unit :=
  act (WaitedLoadState state) (fun p => pw_waitForLoadState B p state).
Definition waitForSelector (selector : string) (timeout : nat) : M (World B) unit :=
  act (WaitedSelector selector) (fun p => pw_waitForSelector B p selector timeout).
Definition raceSelectors (s1 s2 : string) (timeout : nat) : M (World B) unit :=
  act (Raced s1 s2) (fun p => (Ok tt, pw_raceSelectors B p s1 s2 timeout)).
End Calls.

Arguments count {B} l.
Arguments isVisible {B} l.
Arguments click {B} l.
Arguments evaluate {B A} f.
Arguments screenshot {B} path.
Arguments url {B}.
Arguments goto {B} u.
Arguments waitForLoadState {B} state.
Arguments waitForSelector {B} selector timeout.
Arguments raceSelectors {B} s1 s2 timeout.

End Playwright.
Import Playwright.

(* ===================================================================== *)
(** * ui/pages/BasePage.js *)
(* ===================================================================== *)

Module BasePage.
Section WithBrowser.
Variable B : Browser.
Abbreviation Task := (M (World B)).

(** [this.baseURL] *)
Variable baseURL : string.

Definition goto (path : string) : Task unit :=
  Playwright.goto (baseURL ++ path).

Definition waitForPageLoad : Task unit :=
  waitForLoadState "load";;
  catch
    (waitForSelector "body" 5000;;
     raceSelectors "nav" "header" 3000)
    (fun _ => logger.warn "Could not wait for page to fully stabilize").

(** The loop [for (let i = 0; i < count; i++)] of [isVisible], over the
    indices still to visit. *)
Fixpoint anyVisible (l : Locator) (indices : list nat) : Task bool :=
  match indices with
  | [] => ret false
  | i :: rest =>
      isVisible <- orElse (Playwright.isVisible (nth l i)) false;;
      if isVisible : bool then ret true else anyVisible l rest
  end.

Definition isVisible (l : Locator) : Task bool :=
  catch
    (count <- orElse (Playwright.count l) 0;;
     if Nat.ltb 1 count then anyVisible l (seq 0 count)
     else if Nat.eqb count 1 then orElse (Playwright.isVisible l) false
     else ret false)
    (fun error =>
       logger.warn ("Error checking visibility: " ++ message error);;
       ret false).

(** [String.prototype.toLowerCase] of the JavaScript engine of the page,
    where the function passed to [page.evaluate] runs.  It is a parameter:
    the code is verified for every lower-casing function. *)
Variable toLowerCase : string -> string.

(** The function run in the page by [page.evaluate]. *)
Definition mentionsCookies (innerText : string) : bool :=
  includes (toLowerCase innerText) "cookie" ||
  includes (toLowerCase innerText) "consent" ||
  includes (toLowerCase innerText) "privacy".

Definition dataAttrButton : Locator :=
  first (locator (dq "[data-cky-tag='accept-button']")).

Definition buttonsByRole : Locator :=
  getByRole "button" (NameRegex "Accept|Accept All|OK|Agree" "i").

Definition cookieBanners : list string :=
  [".cookie-banner"; ".cookie-consent"; ".cookie-notice"; ".gdpr-banner";
   ".cky-consent-container"].

Definition acceptButtonIn (banner : Locator) : Locator :=
  first (within banner
    (dq "button:has-text('Accept'), button:has-text('OK'), button:has-text('Agree')")).

(** Each method answers whether it executed its [return]. *)
Definition method1 : Task bool :=
  isDataAttrVisible <- orElse (Playwright.isVisible dataAttrButton) false;;
  if isDataAttrVisible : bool then
    logger.info "Found cookie accept button with data attribute";;
    catch (click dataAttrButton)
      (fun e => logger.warn ("Failed to click button with data attribute: " ++ message e));;
    ret true
  else ret false.

Definition method2 : Task bool :=
  count <- Playwright.count buttonsByRole;;
  if Nat.ltb 0 count then
    logger.info ("Found " ++ decimal count ++ " possible cookie consent buttons");;
    catch (click (nth buttonsByRole 0))
      (fun e => logger.warn ("Failed to click button by role: " ++ message e));;
    ret true
  else ret false.

Fixpoint method3 (selectors : list string) : Task bool :=
  match selectors with
  | [] => ret false
  | selector :: rest =>
      let banner := first (locator selector) in
      isBannerVisible <- orElse (Playwright.isVisible banner) false;;
      if isBannerVisible : bool then
        logger.info ("Found cookie banner with selector: " ++ selector);;
        catch (click (acceptButtonIn banner))
          (fun e => logger.warn
             ("Found banner but failed to click accept button: " ++ message e));;
        ret true
      else method3 rest
  end.

Definition guarded (label : string) (method : Task bool) : Task bool :=
  catch method
    (fun error => logger.warn (label ++ " failed: " ++ message error);; ret false).

Definition acceptCookies : Task unit :=
  logger.info "Attempting to handle cookie consent if present";;
  screenshot "./ui/reports/screenshots/before-cookie-handling.png";;
  hasCookieBanner <- evaluate mentionsCookies;;
  if negb hasCookieBanner then
    logger.info "No cookie banner detected on page - skipping cookie handling"
  else
    returned <- guarded "Method 1" method1;;
    if returned : bool then ret tt else
    returned <- guarded "Method 2" method2;;
    if returned : bool then ret tt else
    returned <- guarded "Method 3" (method3 cookieBanners);;
    if returned : bool then ret tt else
    logger.info "Completed cookie handling attempts - continuing with test".

(** [this.baseURL = baseURL || 'https://www.angelcard.us'] of the
    constructor: an absent or empty argument gives the default. *)
Definition baseURLOf (baseURL : option string) : string :=
  match baseURL with
  | Some u => if String.eqb u "" then "https://www.angelcard.us" else u
  | None => "https://www.angelcard.us"
  end.

End WithBrowser.
End BasePage.

(* ===================================================================== *)
(** * ui/pages/PlatformPage.js *)
(* ===================================================================== *)

Module PlatformPage.

(** [page.locator([...].join(','))] *)
Definition anyOf (selectors : list string) : Locator :=
  locator (join "," (map dq selectors)).

Definition continueWithEmailButton : Locator :=
  anyOf ["a:has-text('Continue with Email')";
         "button:has-text('Email')";
         "a:has-text('Email')";
         "a:has-text('Sign in with Email')";
         "button:has-text('Sign in with Email')";
         "a[href*='email'], button[class*='email']"].

Definition continueWithGoogleButton : Locator :=
  anyOf ["a:has-text('Continue with Google')";
         "button:has-text('Google')";
         "a:has-text('Google')";
         "a:has-text('Sign in with Google')";
         "button:has-text('Sign in with Google')";
         "a[href*='google'], button[class*='google']"].

Definition continueWithAppleButton : Locator :=
  anyOf ["a:has-text('Continue with Apple')";
         "button:has-text('Apple')";
         "a:has-text('Apple')";
         "a:has-text('Sign in with Apple')";
         "button:has-text('Sign in with Apple')";
         "a[href*='apple'], button[class*='apple']"].

Definition cookieConsentContainer : Locator :=
  anyOf ["[role='region'][aria-label='We value your privacy']";
         "[class*='cookie']";
         "[id*='cookie']";
         "[class*='consent']";
         "[id*='consent']"].

(** An entry of the array returned by [getVisibleLoginOptions]. *)
Record LoginOption : Type := { name : string; element : Locator }.

Definition alternativeSelectors : list string :=
  map dq ["form input[type='email']";
          "a:has-text(/sign.?in/i)";
          "a:has-text(/log.?in/i)";
          "button:has-text(/sign.?in/i)";
          "button:has-text(/log.?in/i)";
          "a:has-text(/register/i)";
          "button:has-text(/register/i)"].

(** [otherOptions], as (selector, name) pairs. *)
Definition otherOptions : list (string * string) :=
  [("a:has-text(/facebook/i), button:has-text(/facebook/i)", "Facebook");
   ("a:has-text(/twitter/i), button:has-text(/twitter/i)", "Twitter");
   ("a:has-text(/github/i), button:has-text(/github/i)", "GitHub");
   ("a:has-text(/microsoft/i), button:has-text(/microsoft/i)", "Microsoft");
   (dq "form input[type='email']", "Email Form")].

Definition acceptButton : Locator :=
  first (locator (dq "[data-cky-tag='accept-button'], button:has-text('Accept')")).

Section WithBrowser.
Variable B : Browser.
Abbreviation Task := (M (World B)).

Definition waitForPageLoad : Task unit := BasePage.waitForPageLoad B.

(** The loop over [alternativeSelectors]; running off its end reaches
    the [throw]. *)
Fixpoint tryAlternatives (selectors : list string) : Task unit :=
  match selectors with
  | [] => raise (Error "Could not find email login option")
  | selector :: rest =>
      let element := first (locator selector) in
      elementVisible <- orElse (isVisible element) false;;
      if elementVisible : bool then
        click element;;
        waitForPageLoad
      else tryAlternatives rest
  end.

Definition clickContinueWithEmail : Task unit :=
  catch
    (isVisible <- orElse (isVisible continueWithEmailButton) false;;
     if isVisible : bool then
       click continueWithEmailButton;;
       waitForPageLoad
     else tryAlternatives alternativeSelectors)
    (fun error =>
       logger.error ("Error in clickContinueWithEmail: " ++ message error);;
       raise error).

(** The loop [for (let i = 0; i < Math.min(count, 5); i++)]; the inner
    [try/catch] has nothing left to catch. *)
Fixpoint anyOfFirst (l : Locator) (indices : list nat) : Task bool :=
  match indices with
  | [] => ret false
  | i :: rest =>
      visible <- catch (orElse (isVisible (nth l i)) false) (fun _ => ret false);;
      if visible : bool then ret true else anyOfFirst l rest
  end.

Definition isCookieConsentVisible : Task bool :=
  catch
    (count <- count cookieConsentContainer;;
     found <- (if Nat.ltb 0 count
               then anyOfFirst cookieConsentContainer (seq 0 (Nat.min count 5))
               else ret false);;
     if found : bool then ret true else
     accept <- orElse (isVisible acceptButton) false;;
     if accept : bool then ret true else ret false)
    (fun _ => ret false).

(** The lower-casing of the page's engine, as in [BasePage]. *)
Variable toLowerCase : string -> string.

Definition handleCookieConsent : Task unit :=
  catch (BasePage.acceptCookies B toLowerCase)
    (fun error => logger.warn ("Cookie handling error: " ++ message error)).

(** [if (await l.isVisible().catch(() => false)) options.push(...)],
    with the array threaded through. *)
Definition pushIfVisible (options : list LoginOption) (n : string) (l : Locator)
  : Task (list LoginOption) :=
  visible <- orElse (isVisible l) false;;
  ret (if visible : bool then (options ++ [{| name := n; element := l |}])%list
       else options).

Fixpoint pushOthers (options : list LoginOption) (others : list (string * string))
  : Task (list LoginOption) :=
  match others with
  | [] => ret options
  | (selector, n) :: rest =>
      options' <- pushIfVisible options n (first (locator selector));;
      pushOthers options' rest
  end.

Definition getVisibleLoginOptions : Task (list LoginOption) :=
  options <- pushIfVisible [] "Email" continueWithEmailButton;;
  options <- pushIfVisible options "Google" continueWithGoogleButton;;
  options <- pushIfVisible options "Apple" continueWithAppleButton;;
  pushOthers options otherOptions.

(** [super(page, 'https://platform.angelcard.us')] *)
Definition baseURL : string :=
  BasePage.baseURLOf (Some "https://platform.angelcard.us").

Definition navigateToPlatform : Task unit :=
  BasePage.goto B baseURL "/";;
  waitForPageLoad.

Definition clickContinueWithGoogle : Task unit :=
  catch
    (isVisible <- orElse (isVisible continueWithGoogleButton) false;;
     if isVisible : bool then
       click continueWithGoogleButton;;
       waitForPageLoad
     else raise (Error "Google login option not found"))
    (fun error =>
       logger.error ("Error in clickContinueWithGoogle: " ++ message error);;
       raise error).

Definition clickContinueWithApple : Task unit :=
  catch
    (isVisible <- orElse (isVisible continueWithAppleButton) false;;
     if isVisible : bool then
       click continueWithAppleButton;;
       waitForPageLoad
     else raise (Error "Apple login option not found"))
    (fun error =>
       logger.error ("Error in clickContinueWithApple: " ++ message error);;
       raise error).

End WithBrowser.
End PlatformPage.

(* ===================================================================== *)
(** * ui/pages/HomePage.js *)
(* ===================================================================== *)

Module HomePage.

(** The fields of a [HomePage] object that the methods below read.  A
    JavaScript property may be absent, which [!this.enterPlatformButton]
    tests for. *)
Record HomePage : Type :=
  { angelCardLogo : Locator;
    enterPlatformButton : option Locator }.

(** [new HomePage(page)] *)
Definition new : HomePage :=
  {| angelCardLogo := first (locator "img");
     enterPlatformButton :=
       Some (first (locator (dq
         "a:has-text('Enter Platform'), button:has-text('Enter Platform'), a:has-text('Enter'), button:has-text('Enter')"))) |}.

Definition possibleButtons : list Locator :=
  [first (getByRole "link" (NameRegex "enter" "i"));
   first (getByRole "button" (NameRegex "enter" "i"));
   first (locator (dq "a:has-text('Enter'), button:has-text('Enter')"))].

(** [/.*angelcard\.us\/?$/] and [/.*angelcard\.us\/$/] *)
Definition homeOptionalSlash : RegExp :=
  (DotStar :: lits "angelcard.us" ++ [OptLit "/"; Eoi])%list.
Definition homeSlash : RegExp :=
  (DotStar :: lits "angelcard.us" ++ [Lit "/"; Eoi])%list.

Section WithBrowser.
Variable B : Browser.
Abbreviation Task := (M (World B)).

Definition waitForPageLoad : Task unit := BasePage.waitForPageLoad B.

Fixpoint clickFirstVisible (buttons : list Locator) : Task unit :=
  match buttons with
  | [] => raise (Error "Enter Platform button not found on page")
  | button :: rest =>
      visible <- orElse (isVisible button) false;;
      if visible : bool then
        click button;;
        waitForPageLoad
      else clickFirstVisible rest
  end.

Definition clickEnterPlatform (this : HomePage) : Task unit :=
  match enterPlatformButton this with
  | None => clickFirstVisible possibleButtons
  | Some button =>
      click button;;
      waitForPageLoad
  end.

Definition clickAngelCardLogo (this : HomePage) : Task bool :=
  isLogoVisible <- orElse (isVisible (angelCardLogo this)) false;;
  if negb isLogoVisible then
    raise (Error "AngelCard logo is not visible on the page")
  else
    click (angelCardLogo this);;
    waitForPageLoad;;
    currentUrl <- url;;
    if test homeOptionalSlash currentUrl || test homeSlash currentUrl
    then ret true
    else ret false.

Fixpoint anyButtonVisible (buttons : list Locator) : Task bool :=
  match buttons with
  | [] => ret false
  | button :: rest =>
      visible <- orElse (isVisible button) false;;
      if visible : bool then ret true else anyButtonVisible rest
  end.

Definition isEnterPlatformButtonVisible : Task bool :=
  anyButtonVisible possibleButtons.

(** [super(page)]: no base URL is passed. *)
Definition baseURL : string := BasePage.baseURLOf None.

Definition navigateToHomePage : Task unit :=
  BasePage.goto B baseURL "/";;
  waitForPageLoad.

(** The footer links the constructor stores, and their click methods. *)
Definition publicOfferLink : Locator :=
  locator (dq "a:has-text('Public offer and Privacy policy')").
Definition termsAndConditionsLink : Locator :=
  locator (dq "a:has-text('Terms & Conditions')").
Definition refundPolicyLink : Locator :=
  locator (dq "a:has-text('Refund Policy')").
Definition shippingPolicyLink : Locator :=
  locator (dq "a:has-text('Shipping Policy')").

Definition clickPublicOfferLink : Task unit :=
  click publicOfferLink;;
  waitForPageLoad.

Definition clickTermsAndConditions : Task unit :=
  click termsAndConditionsLink;;
  waitForPageLoad.

Definition clickRefundPolicy : Task unit :=
  click refundPolicyLink;;
  waitForPageLoad.

Definition clickShippingPolicy : Task unit :=
  click shippingPolicyLink;;
  waitForPageLoad.

End WithBrowser.
End HomePage.

(* ===================================================================== *)
(** * ui/tests: what the test files do around the page objects *)
(* ===================================================================== *)

Module Tests.

(** [ui/tests/platformEntry.spec.js], "should navigate to email
    registration page": the test goes on to [clickContinueWithEmail] only
    when this holds of the options [getVisibleLoginOptions] returned. *)
Definition hasEmailOption (loginOptions : list PlatformPage.LoginOption) : bool :=
  existsb (fun option =>
             includes (toLowerCase (PlatformPage.name option)) "email"
             || String.eqb (PlatformPage.name option) "Email Form")
          loginOptions.

Section WithBrowser.
Variable B : Browser.
Abbreviation Task := (M (World B)).

(** The lower-casing of the page's engine, as in [BasePage]. *)
Variable toLowerCase : string -> string.

(** [Date.now()], read when the screenshot is named. *)
Variable now : nat.

(** [ui/tests/homeNavigation.spec.js], the [beforeEach] hook. *)
Definition beforeEach : Task unit :=
  logger.info "Starting home page navigation test";;
  catch
    (HomePage.navigateToHomePage B;;
     u <- url;;
     logger.info ("Navigated to page with URL: " ++ u);;
     screenshot ("./ui/reports/screenshots/before-test-" ++ decimal now ++ ".png");;
     catch (BasePage.acceptCookies B toLowerCase)
       (fun cookieError =>
          logger.warn ("Cookie handling error: " ++ message cookieError)))
    (fun error => logger.error ("Error in beforeEach: " ++ message error)).

End WithBrowser.
End Tests.

(* ===================================================================== *)
(** * A scripted browser *)
(* ===================================================================== *)

(** A small concrete [Browser] on which the page objects can be run.  A
    page says, for every locator the code may build from a selector, which
    elements it matches (in document order) and the state of each.  It
    follows Playwright's strictness: [isVisible] and [click] on a locator
    that resolves to several elements fail with a strict mode violation;
    [isVisible] on none answers [false]; [click] needs one element that
    is visible and not covered. *)
Module Scripted.

Inductive ElementState : Type :=
| Visible              (* visible and clickable *)
| Hidden               (* attached but not visible *)
| Covered.             (* visible, but another element takes the click *)

Definition shown (e : ElementState) : bool :=
  match e with Hidden => false | _ => true end.

Definition NamePattern_eq_dec (a b : NamePattern) : {a = b} + {a <> b}.
Proof. decide equality; apply string_dec. Defined.

Definition Locator_eq_dec (a b : Locator) : {a = b} + {a <> b}.
Proof.
  decide equality;
    try apply string_dec; try apply Nat.eq_dec; apply NamePattern_eq_dec.
Defined.

Record Page : Type :=
  { bodyText : option string;                 (* None: no document.body *)
    elements : list (Locator * list ElementState);
    address : string;
    links : list (Locator * string);          (* where a click leads *)
    clicks : list Locator }.                  (* the clicks that landed *)

Fixpoint assoc {A} (l : Locator) (table : list (Locator * A)) : option A :=
  match table with
  | [] => None
  | (k, v) :: rest => if Locator_eq_dec k l then Some v else assoc l rest
  end.

Fixpoint resolve (p : Page) (l : Locator) : list ElementState :=
  match l with
  | first l' => firstn 1 (resolve p l')
  | nth l' i => firstn 1 (skipn i (resolve p l'))
  | _ => match assoc l (elements p) with Some es => es | None => [] end
  end.

Definition strictModeViolation : JsError :=
  Error "strict mode violation: locator resolved to several elements".

Definition timeoutError : JsError :=
  mkError "TimeoutError" "Timeout 15000ms exceeded.".

Definition isVisible (p : Page) (l : Locator) : Outcome bool :=
  match resolve p l with
  | [] => Ok false
  | [e] => Ok (shown e)
  | _ => Throw strictModeViolation
  end.

Definition land (p : Page) (l : Locator) : Page :=
  {| bodyText := bodyText p;
     elements := elements p;
     address := match assoc l (links p) with Some u => u | None => address p end;
     links := links p;
     clicks := (clicks p ++ [l])%list |}.

Definition click (p : Page) (l : Locator) : Outcome unit * Page :=
  match resolve p l with
  | [Visible] => (Ok tt, land p l)
  | [] | [_] => (Throw timeoutError, p)
  | _ => (Throw strictModeViolation, p)
  end.

Definition innerText (p : Page) : Outcome string :=
  match bodyText p with
  | Some t => Ok t
  | None => Throw (TypeError "Cannot read properties of null (reading 'innerText')")
  end.

Definition goto (p : Page) (u : string) : Outcome unit * Page :=
  (Ok tt,
   {| bodyText := bodyText p; elements := elements p; address := u;
      links := links p; clicks := clicks p |}).

Definition browser : Browser :=
  {| Playwright.Page := Page;
     pw_count := fun p l => Ok (length (resolve p l));
     pw_isVisible := isVisible;
     pw_click := click;
     pw_innerText := innerText;
     pw_screenshot := fun _ _ => Ok tt;
     pw_url := address;
     pw_goto := goto;
     pw_waitForLoadState := fun p _ => (Ok tt, p);
     pw_waitForSelector := fun p _ _ => (Ok tt, p);
     pw_raceSelectors := fun p _ _ _ => p |}.

(** A page with the given text and elements, at the given address. *)
Definition pageOf (text : string) (els : list (Locator * list ElementState))
           (addr : string) : Page :=
  {| bodyText := Some text; elements := els; address := addr;
     links := []; clicks := [] |}.

Definition start (p : Page) : World browser := @Build_World browser p [].

End Scripted.

(* ===================================================================== *)
(** * Vocabulary of the statements *)
(* ===================================================================== *)

Local Open Scope list_scope.

Module Spec.
Section WithBrowser.
Variable B : Browser.

(** The probe [l.isVisible().catch(() => false)] as a function of the
    page: an error counts as not visible. *)
Definition reportsVisible (p : Page B) (l : Locator) : bool :=
  match pw_isVisible B p l with Ok true => true | _ => false end.

(** The candidates a scan visits when it stops at its first visible
    hit. *)
Fixpoint scanned (p : Page B) (ls : list Locator) : list Locator :=
  match ls with
  | [] => []
  | l :: rest => l :: (if reportsVisible p l then [] else scanned p rest)
  end.

(** The world once [events] have been added to its trace. *)
Definition after (w : World B) (events : list Event) : World B :=
  {| page := page w; trace := trace w ++ events |}.

(** The registry of login options, in the order
    [getVisibleLoginOptions] consults it. *)
Definition registry : list PlatformPage.LoginOption :=
  {| PlatformPage.name := "Email";
     PlatformPage.element := PlatformPage.continueWithEmailButton |}
  :: {| PlatformPage.name := "Google";
        PlatformPage.element := PlatformPage.continueWithGoogleButton |}
  :: {| PlatformPage.name := "Apple";
        PlatformPage.element := PlatformPage.continueWithAppleButton |}
  :: map (fun o => {| PlatformPage.name := snd o;
                      PlatformPage.element := first (locator (fst o)) |})
         PlatformPage.otherOptions.

Definition visibleOptions (p : Page B) : list PlatformPage.LoginOption :=
  filter (fun o => reportsVisible p (PlatformPage.element o)) registry.

(** ** The cookie-consent strategies, read off the page *)

Inductive Strategy : Type :=
| StrategyA                       (* the data-attribute button *)
| StrategyB                       (* a button found by role and name *)
| StrategyC (selector : string).  (* a known banner container *)

Definition banner (selector : string) : Locator := first (locator selector).

(** What a strategy clicks once it has found its target. *)
Definition target (s : Strategy) : Locator :=
  match s with
  | StrategyA => BasePage.dataAttrButton
  | StrategyB => nth BasePage.buttonsByRole 0
  | StrategyC selector => BasePage.acceptButtonIn (banner selector)
  end.

Definition roleButtons (p : Page B) : nat :=
  match pw_count B p BasePage.buttonsByRole with Ok n => n | Throw _ => 0 end.

(** The first strategy, in the order A, B, C, that finds its target. *)
Definition selected (p : Page B) : option Strategy :=
  if reportsVisible p BasePage.dataAttrButton then Some StrategyA
  else if Nat.ltb 0 (roleButtons p) then Some StrategyB
  else option_map StrategyC
         (find (fun s => reportsVisible p (banner s)) BasePage.cookieBanners).

Definition clickOf (s : option Strategy) : list Locator :=
  match s with Some s => [target s] | None => [] end.

(** The probes made on the way to it. *)
Definition attempts (p : Page B) : list Event :=
  Probed BasePage.dataAttrButton ::
  (if reportsVisible p BasePage.dataAttrButton then []
   else Counted BasePage.buttonsByRole ::
        (if Nat.ltb 0 (roleButtons p) then []
         else map Probed (scanned p (map banner BasePage.cookieBanners)))).

(** The page the handler leaves: the one its single click, if any,
    produced. *)
Definition landing (p : Page B) : Page B :=
  match selected p with
  | Some s => snd (pw_click B p (target s))
  | None => p
  end.

(** The calls made to the browser, the logger's lines left out. *)
Definition calls (t : list Event) : list Event :=
  filter (fun e => match e with Logged _ => false | _ => true end) t.

Definition clicksIn (t : list Event) : list Locator :=
  flat_map (fun e => match e with Clicked l => [l] | _ => [] end) t.

(** A page on which the handler has nothing to accept.  This is what
    the handler finds, not whether a person would see a consent banner:
    the page text, lower-cased by [lower], mentions none of the three
    words (or cannot be read), or none of the elements the strategies
    look for is there. *)
Definition silent (lower : string -> string) (p : Page B) : Prop :=
  forall t, pw_innerText B p = Ok t -> BasePage.mentionsCookies lower t = false.

Definition nothingToAccept (lower : string -> string) (p : Page B) : Prop :=
  silent lower p \/ selected p = None.

(** ** The lines and calls of one run of [acceptCookies] *)

Definition shot : string := "./ui/reports/screenshots/before-cookie-handling.png".

Definition opening : list Event :=
  [Logged (INFO, "Attempting to handle cookie consent if present");
   Screenshot shot].

Definition clickLog (pref : string) (o : Outcome unit) : list Event :=
  match o with
  | Ok _ => []
  | Throw e => [Logged (WARN, (pref ++ message e)%string)]
  end.

Definition strategyA_events (p : Page B) : list Event :=
  [Probed BasePage.dataAttrButton;
   Logged (INFO, "Found cookie accept button with data attribute");
   Clicked BasePage.dataAttrButton]
  ++ clickLog "Failed to click button with data attribute: "
       (fst (pw_click B p BasePage.dataAttrButton)).

Definition strategyB_events (p : Page B) : list Event :=
  [Counted BasePage.buttonsByRole;
   Logged (INFO, ("Found " ++ decimal (roleButtons p)
                  ++ " possible cookie consent buttons")%string);
   Clicked (nth BasePage.buttonsByRole 0)]
  ++ clickLog "Failed to click button by role: "
       (fst (pw_click B p (nth BasePage.buttonsByRole 0))).

Definition strategyC_events (p : Page B) (selector : string) : list Event :=
  [Logged (INFO, ("Found cookie banner with selector: " ++ selector)%string);
   Clicked (BasePage.acceptButtonIn (banner selector))]
  ++ clickLog "Found banner but failed to click accept button: "
       (fst (pw_click B p (BasePage.acceptButtonIn (banner selector)))).

Definition bannerTrace (p : Page B) : list Event :=
  map Probed (scanned p (map banner BasePage.cookieBanners))
  ++ match find (fun s => reportsVisible p (banner s)) BasePage.cookieBanners with
     | Some s => strategyC_events p s
     | None =>
         [Logged (INFO, "Completed cookie handling attempts - continuing with test")]
     end.

Definition strategyTrace (p : Page B) : list Event :=
  if reportsVisible p BasePage.dataAttrButton then strategyA_events p
  else Probed BasePage.dataAttrButton ::
       match pw_count B p BasePage.buttonsByRole with
       | Throw e =>
           Counted BasePage.buttonsByRole
           :: Logged (WARN, ("Method 2 failed: " ++ message e)%string)
           :: bannerTrace p
       | Ok n =>
           if Nat.ltb 0 n then strategyB_events p
           else Counted BasePage.buttonsByRole :: bannerTrace p
       end.

(** ** A click followed by [waitForPageLoad] *)

(** The waits of one [waitForPageLoad], from the page it starts on. *)
Definition waits (p : Page B) : list Event :=
  let load := pw_waitForLoadState B p "load" in
  WaitedLoadState "load"
  :: (if isOk (fst load)
      then WaitedSelector "body"
           :: (if isOk (fst (pw_waitForSelector B (snd load) "body" 5000))
               then [Raced "nav" "header"]
               else [])
      else []).

(** How [await l.click(); await this.waitForPageLoad()] ends: with the
    click's error, or as the wait for the load event does. *)
Definition clickOutcome (p : Page B) (l : Locator) : Outcome unit :=
  match fst (pw_click B p l) with
  | Throw e => Throw e
  | Ok _ => fst (pw_waitForLoadState B (snd (pw_click B p l)) "load")
  end.

Definition clickCalls (p : Page B) (l : Locator) : list Event :=
  Clicked l
  :: (if isOk (fst (pw_click B p l)) then waits (snd (pw_click B p l)) else []).

End WithBrowser.

Arguments waits {B} p.
Arguments clickOutcome {B} p l.
Arguments clickCalls {B} p l.
Arguments reportsVisible {B} p l.
Arguments scanned {B} p ls.
Arguments after {B} w events.
Arguments visibleOptions {B} p.
Arguments roleButtons {B} p.
Arguments selected {B} p.
Arguments attempts {B} p.
Arguments landing {B} p.
Arguments silent {B} lower p.
Arguments nothingToAccept {B} lower p.
Arguments strategyA_events {B} p.
Arguments strategyB_events {B} p.
Arguments strategyC_events {B} p selector.
Arguments bannerTrace {B} p.
Arguments strategyTrace {B} p.

(** The address test of [clickAngelCardLogo], in words: the address
    ends in the domain, with or without a final slash. *)
Definition atHome (u : string) : bool :=
  endsWith u "angelcard.us" || endsWith u "angelcard.us/".

(** A request whose signature header is the one a sender holding the
    secret computes for its body. *)
Definition signed (hmac : string -> string -> string) (secret : string) (b : JSON)
  : Server.Request :=
  {| Server.headers := fun h =>
       if String.eqb h "x-webhook-signature"
       then Some ("sha256=" ++ hmac secret (JSON_stringify b))%string
       else None;
     Server.body := b |}.


(** The same body under another header value, or under none. *)
Definition withHeader (header : option string) (b : JSON) : Server.Request :=
  {| Server.headers := fun h =>
       if String.eqb h "x-webhook-signature" then header else None;
     Server.body := b |}.

(** The messages logged at ERROR level. *)
Definition errorsIn (t : list Event) : list string :=
  flat_map (fun e => match e with Logged (ERROR, msg) => [msg] | _ => [] end) t.

(** ** What the webhook handlers read of a body *)

(** [body.key] for a body that is neither [null] nor [undefined]: the
    own property of an object, [undefined] on anything else. *)
Definition field (b : JSON) (key : string) : Value :=
  match b with JObject props => lookup key props | _ => undefined end.

(** The value can be spliced into a template literal. *)
Definition prints (v : Value) : bool := isOk (ToString v).

Definition print (v : Value) : string :=
  match ToString v with Ok s => s | Throw _ => "" end.

(** Express's answer to a handler that threw. *)
Definition serverError : Server.Response :=
  {| Server.status := 500; Server.payload := Server.ErrorPage |}.

(** What the client gets from a handler's run: the response it sent, or
    Express's 500 when it threw. *)
Definition answer (o : Outcome Server.Response) : Server.Response :=
  match o with Ok res => res | Throw _ => serverError end.

(** ** The candidates of [clickContinueWithEmail], in the order it
    probes them *)
Definition emailCandidates : list Locator :=
  PlatformPage.continueWithEmailButton
  :: map (fun s => first (locator s)) PlatformPage.alternativeSelectors.

End Spec.
Import Spec.

(* ===================================================================== *)
(** * Pages and requests to run the code on *)
(* ===================================================================== *)

Module Examples.
Import Scripted.

(** A platform page with nothing the page objects look for. *)
Definition blank : Page :=
  pageOf "AngelCard" [] "https://platform.angelcard.us/".

(** The lower-casing the examples run with.  Their page texts are all
    ASCII, and on ASCII text every engine folds A-Z and nothing else. *)
Definition engine : string -> string := toLowerCase.



(** A consent banner written in capitals, with the accept button of
    Strategy A. *)
Definition shoutingBanner : Page :=
  pageOf "WE VALUE YOUR PRIVACY - ACCEPT ALL COOKIES"
         [(locator (dq "[data-cky-tag='accept-button']"), [Visible])]
         "https://www.angelcard.us/".

(** A banner that only Strategy C recognises: the second known
    container, with an accept button inside. *)
Definition classBanner : Page :=
  pageOf "This site uses cookies"
         [(locator ".cookie-consent", [Visible]);
          (within (first (locator ".cookie-consent"))
             (dq "button:has-text('Accept'), button:has-text('OK'), button:has-text('Agree')"),
           [Visible])]
         "https://www.angelcard.us/".

(** The accept button of Strategy A under an overlay: visible, but the
    click does not go through.  A button that Strategy B would find is
    free. *)
Definition coveredButton : Page :=
  pageOf "We use cookies"
         [(locator (dq "[data-cky-tag='accept-button']"), [Covered]);
          (BasePage.buttonsByRole, [Visible])]
         "https://www.angelcard.us/".

(** Six elements match one locator, and the consent container too; only
    the sixth of each is visible. *)
Definition options : Locator := locator ".login-option".

Definition sixMatches : Page :=
  pageOf "AngelCard"
         [(options, [Hidden; Hidden; Hidden; Hidden; Hidden; Visible]);
          (PlatformPage.cookieConsentContainer,
           [Hidden; Hidden; Hidden; Hidden; Hidden; Visible])]
         "https://platform.angelcard.us/".

(** The email locator matches two elements: a visible login link and a
    hidden one.  Nothing else on the page is a login control. *)
Definition emailTwice : Page :=
  pageOf "Log in"
         [(PlatformPage.continueWithEmailButton, [Visible; Hidden])]
         "https://platform.angelcard.us/".

(** One visible email login control. *)
Definition emailOnce : Page :=
  pageOf "Log in"
         [(PlatformPage.continueWithEmailButton, [Visible])]
         "https://platform.angelcard.us/".

(** Only a bare email input. *)
Definition emailInput : Page :=
  pageOf "Log in"
         [(locator (dq "form input[type='email']"), [Visible])]
         "https://platform.angelcard.us/".


(** The public-offer page, whose logo leads home. *)
Definition logoLeadsHome : Page :=
  {| bodyText := Some "Public offer";
     elements := [(locator "img", [Visible; Visible])];
     address := "https://www.angelcard.us/public-offer";
     links := [(first (locator "img"), "https://www.angelcard.us/")];
     clicks := [] |}.

(** The body of the spec's webhook scenario, and one that differs. *)
Definition fivePassed : JSON :=
  JObject [("testResults", JObject [("summary", JString "5 passed")]);
           ("buildId", JString "42");
           ("runId", JString "7")].

Definition sixPassed : JSON :=
  JObject [("testResults", JObject [("summary", JString "6 passed")]);
           ("buildId", JString "42");
           ("runId", JString "7")].

Definition secret : string := Server.WEBHOOK_SECRET_of (fun _ => None).

End Examples.

(* ===================================================================== *)
(** * Facts about the embedding *)
(* ===================================================================== *)

Ltac tidy :=
  unfold after, record; cbn;
  repeat (rewrite <- app_assoc; cbn); try reflexivity.

(** ** Node's crypto against published test vectors *)

Example sha256_abc :
  NodeCrypto.sha256Hex "abc"
  = "ba7816bf8f01cfea414140de5dae2223b00361a396177a9cb410ff61f20015ad".
Proof. vm_compute. reflexivity. Qed.

Example sha256_empty :
  NodeCrypto.sha256Hex ""
  = "e3b0c44298fc1c149afbf4c8996fb92427ae41e4649b934ca495991b7852b855".
Proof. vm_compute. reflexivity. Qed.

(** RFC 4231, test case 2. *)
Example hmac_rfc4231_2 :
  NodeCrypto.hmacSha256Hex "Jefe" "what do ya want for nothing?"
  = "5bdcc146bf60754e6a042426089575c75a003f089d2739839dec58b964ec3843".
Proof. vm_compute. reflexivity. Qed.

Example stringify_fivePassed :
  JSON_stringify Examples.fivePassed
  = dq "{'testResults':{'summary':'5 passed'},'buildId':'42','runId':'7'}".
Proof. vm_compute. reflexivity. Qed.

(** ** Strings and patterns *)

Lemma ascii_eqb_sym (a b : ascii) : Ascii.eqb a b = Ascii.eqb b a.
Proof.
  destruct (Ascii.eqb_spec a b) as [->|N].
  - symmetry. apply Ascii.eqb_refl.
  - symmetry. apply Ascii.eqb_neq. congruence.
Qed.

(** A literal followed by the end anchor matches exactly that string. *)
Lemma matchHere_lits_end (s u : string) :
  matchHere (lits s ++ [Eoi]) u = String.eqb u s.
Proof.
  revert u. induction s as [|a s IH]; intros [|d r]; cbn; try reflexivity.
  rewrite IH, ascii_eqb_sym. reflexivity.
Qed.

(** With an optional last character: that string, or it and the
    character. *)
Lemma matchHere_lits_opt_end (s : string) (c : ascii) (u : string) :
  matchHere (lits s ++ [OptLit c; Eoi]) u
  = String.eqb u s || String.eqb u (s ++ String c "")%string.
Proof.
  revert u. induction s as [|a s IH]; intros [|d r]; cbn; try reflexivity.
  - rewrite orb_false_r, ascii_eqb_sym. destruct r; reflexivity.
  - rewrite IH, ascii_eqb_sym. destruct (Ascii.eqb d a); reflexivity.
Qed.

Lemma test_ends (re : RegExp) (s : string) :
  (forall u, matchHere re u = String.eqb u s) ->
  forall u, test re u = endsWith u s.
Proof.
  intros H u. induction u as [|c u IH]; cbn; rewrite H; [reflexivity|].
  now rewrite IH.
Qed.

(** A leading [.*] adds nothing to a pattern that is tried at every start
    position. *)
Lemma test_DotStar (re : RegExp) (u : string) :
  test (DotStar :: re) u = test re u.
Proof.
  assert (Hstar : forall v, matchHere (DotStar :: re) v = true -> test re v = true).
  { induction v as [|c v IHv]; cbn.
    - rewrite orb_false_r. intros ->. reflexivity.
    - intros H. apply orb_true_iff in H. destruct H as [H|H].
      + now rewrite H.
      + apply andb_true_iff in H. destruct H as [_ H].
        rewrite (IHv H). apply orb_true_r. }
  assert (Hre : forall v, matchHere re v = true -> matchHere (DotStar :: re) v = true).
  { intros [|c v] H; cbn; now rewrite H. }
  induction u as [|c u IH].
  - cbn. now rewrite orb_false_r.
  - cbn [test]. rewrite IH.
    destruct (matchHere (DotStar :: re) (String c u)) eqn:E1.
    + apply Hstar in E1. cbn [test] in E1. now rewrite E1.
    + destruct (matchHere re (String c u)) eqn:E2; [|reflexivity].
      apply Hre in E2. congruence.
Qed.

(** The condition of [clickAngelCardLogo] on the address. *)
Lemma home_patterns (u : string) :
  test HomePage.homeOptionalSlash u || test HomePage.homeSlash u = atHome u.
Proof.
  unfold HomePage.homeOptionalSlash, HomePage.homeSlash, atHome.
  rewrite !test_DotStar.
  rewrite (test_ends _ "angelcard.us/" (matchHere_lits_end "angelcard.us/") u
           : test (lits "angelcard.us" ++ [Lit "/"; Eoi]) u = _).
  assert (H : test (lits "angelcard.us" ++ [OptLit "/"; Eoi]) u
              = endsWith u "angelcard.us" || endsWith u "angelcard.us/").
  { induction u as [|c u IH].
    - reflexivity.
    - cbn [test endsWith]. rewrite IH, matchHere_lits_opt_end.
      change ("angelcard.us" ++ "/")%string with "angelcard.us/".
      destruct (String.eqb (String c u) "angelcard.us"),
               (String.eqb (String c u) "angelcard.us/"),
               (endsWith u "angelcard.us"), (endsWith u "angelcard.us/");
        reflexivity. }
  rewrite H.
  destruct (endsWith u "angelcard.us"), (endsWith u "angelcard.us/"); reflexivity.
Qed.

(** ** Running the page objects *)

Section Facts.
Variable B : Browser.
Variable lower : string -> string.
Implicit Types (w : World B) (l : Locator).

Lemma after_nil w : after w [] = w.
Proof. destruct w; unfold after; cbn. now rewrite app_nil_r. Qed.

Lemma after_after w e1 e2 : after (after w e1) e2 = after w (e1 ++ e2).
Proof. unfold after; cbn. now rewrite app_assoc. Qed.

Lemma probe_orElse l w :
  orElse (isVisible l) false w = (Ok (reportsVisible (page w) l), after w [Probed l]).
Proof.
  unfold orElse, isVisible, probe, reportsVisible. cbn.
  destruct (pw_isVisible B (page w) l) as [[|]|e]; reflexivity.
Qed.

(** The three loops that probe candidates until one is visible share
    one proof. *)
Ltac scan_loop ls :=
  let w := fresh "w" in
  let IH := fresh "IH" in
  induction ls as [|? ls IH]; intros w;
  [ cbn; now rewrite after_nil
  | cbn [HomePage.anyButtonVisible BasePage.anyVisible PlatformPage.anyOfFirst
         bind catch Monad_M Exc_M];
    rewrite probe_orElse; cbn [existsb scanned map];
    match goal with
    | |- context [reportsVisible ?p ?c] => destruct (reportsVisible p c)
    end;
    [ reflexivity | rewrite IH; cbn; rewrite after_after; reflexivity ] ].

Lemma anyButtonVisible_scan ls : forall w,
  HomePage.anyButtonVisible B ls w
  = (Ok (existsb (reportsVisible (page w)) ls),
     after w (map Probed (scanned (page w) ls))).
Proof. scan_loop ls. Qed.

Lemma anyVisible_scan l indices : forall w,
  BasePage.anyVisible B l indices w
  = (Ok (existsb (reportsVisible (page w)) (map (nth l) indices)),
     after w (map Probed (scanned (page w) (map (nth l) indices)))).
Proof. scan_loop indices. Qed.

Lemma anyOfFirst_scan l indices : forall w,
  PlatformPage.anyOfFirst B l indices w
  = (Ok (existsb (reportsVisible (page w)) (map (nth l) indices)),
     after w (map Probed (scanned (page w) (map (nth l) indices)))).
Proof. scan_loop indices. Qed.

Lemma count_orElse l w :
  orElse (count l) 0 w
  = (Ok (match pw_count B (page w) l with Ok n => n | Throw _ => 0 end),
     after w [Counted l]).
Proof.
  unfold orElse, count, probe. cbn.
  destruct (pw_count B (page w) l); reflexivity.
Qed.

(** What [BasePage.isVisible] computes and which calls it makes. *)
Lemma isVisible_run l w :
  BasePage.isVisible B l w
  = let n := match pw_count B (page w) l with Ok n => n | Throw _ => 0 end in
    if Nat.ltb 1 n then
      (Ok (existsb (reportsVisible (page w)) (map (nth l) (seq 0 n))),
       after w (Counted l :: map Probed (scanned (page w) (map (nth l) (seq 0 n)))))
    else if Nat.eqb n 1 then
      (Ok (reportsVisible (page w) l), after w [Counted l; Probed l])
    else (Ok false, after w [Counted l]).
Proof.
  unfold BasePage.isVisible. cbn [bind catch Monad_M Exc_M].
  rewrite count_orElse. cbv zeta.
  destruct (Nat.ltb 1 _) eqn:E1.
  - rewrite anyVisible_scan. cbn. rewrite after_after. reflexivity.
  - destruct (Nat.eqb _ 1) eqn:E2.
    + rewrite probe_orElse. cbn. rewrite after_after. reflexivity.
    + reflexivity.
Qed.

Lemma pushIfVisible_run options n l w :
  PlatformPage.pushIfVisible B options n l w
  = (Ok (options ++ filter (fun o => reportsVisible (page w) (PlatformPage.element o))
                      [{| PlatformPage.name := n; PlatformPage.element := l |}])%list,
     after w [Probed l]).
Proof.
  unfold PlatformPage.pushIfVisible. cbn [bind Monad_M].
  rewrite probe_orElse. cbn.
  destruct (reportsVisible (page w) l); cbn; [|rewrite app_nil_r]; reflexivity.
Qed.

Lemma pushOthers_run others : forall options w,
  PlatformPage.pushOthers B options others w
  = (Ok (options ++ filter (fun o => reportsVisible (page w) (PlatformPage.element o))
           (map (fun o => {| PlatformPage.name := snd o;
                             PlatformPage.element := first (locator (fst o)) |}) others))%list,
     after w (map (fun o => Probed (first (locator (fst o)))) others)).
Proof.
  induction others as [|[sel n] others IH]; intros options w.
  - cbn. now rewrite app_nil_r, after_nil.
  - cbn [PlatformPage.pushOthers]. cbn [bind Monad_M].
    rewrite pushIfVisible_run, IH. cbn [page after map filter fst snd PlatformPage.element].
    rewrite after_after. rewrite <- app_assoc. f_equal. f_equal. f_equal.
    destruct (reportsVisible (page w) (first (locator sel))); reflexivity.
Qed.

(** [getVisibleLoginOptions] returns the registry entries whose probe
    reports a visible element, and only probes. *)
Lemma getVisibleLoginOptions_run w :
  PlatformPage.getVisibleLoginOptions B w
  = (Ok (visibleOptions (page w)),
     after w (map (fun o => Probed (PlatformPage.element o)) registry)).
Proof.
  unfold PlatformPage.getVisibleLoginOptions. cbn [bind Monad_M].
  rewrite !pushIfVisible_run. cbn [page after].
  rewrite pushOthers_run. cbn [page after]. rewrite !after_after.
  unfold visibleOptions, registry.
  f_equal. f_equal. rewrite app_nil_l, <- !filter_app. reflexivity.
Qed.

(** ** Cookie handling *)

Lemma guarded_click pref l w :
  catch (click l) (fun e => logger.warn (pref ++ message e)%string) w
  = (Ok tt,
     {| page := snd (pw_click B (page w) l);
        trace := trace w ++ Clicked l :: clickLog pref (fst (pw_click B (page w) l)) |}).
Proof.
  unfold click, act. cbn.
  destruct (pw_click B (page w) l) as [[[]|e] p']; cbn.
  - reflexivity.
  - unfold logger.warn, logAt. cbn. unfold record. cbn.
    rewrite <- app_assoc. reflexivity.
Qed.

Lemma catch_apply {St A} (m : M St A) (h : JsError -> M St A) (s : St) :
  catch m h s = match m s with (Throw e, s') => h e s' | r => r end.
Proof. reflexivity. Qed.

Lemma bind_apply {St A C} (m : M St A) (k : A -> M St C) (s : St) :
  bind m k s = match m s with (Ok a, s') => k a s' | (Throw e, s') => (Throw e, s') end.
Proof. reflexivity. Qed.

Lemma log_apply lvl msg w :
  logAt lvl msg w = (Ok tt, after w [Logged (lvl, msg)]).
Proof. reflexivity. Qed.

Lemma method1_run w :
  BasePage.guarded B "Method 1" (BasePage.method1 B) w
  = if reportsVisible (page w) BasePage.dataAttrButton
    then (Ok true,
          {| page := snd (pw_click B (page w) BasePage.dataAttrButton);
             trace := trace w ++ strategyA_events (page w) |})
    else (Ok false, after w [Probed BasePage.dataAttrButton]).
Proof.
  unfold BasePage.guarded. rewrite catch_apply.
  unfold BasePage.method1. rewrite bind_apply, probe_orElse.
  destruct (reportsVisible (page w) BasePage.dataAttrButton) eqn:E;
    [|reflexivity].
  unfold logger.info. rewrite bind_apply, log_apply. cbv beta iota.
  rewrite bind_apply, guarded_click. cbv beta iota.
  cbn. unfold strategyA_events. rewrite <- !app_assoc. reflexivity.
Qed.

Lemma method2_run w :
  BasePage.guarded B "Method 2" (BasePage.method2 B) w
  = match pw_count B (page w) BasePage.buttonsByRole with
    | Throw e =>
        (Ok false,
         after w [Counted BasePage.buttonsByRole;
                  Logged (WARN, ("Method 2 failed: " ++ message e)%string)])
    | Ok n =>
        if Nat.ltb 0 n
        then (Ok true,
              {| page := snd (pw_click B (page w) (nth BasePage.buttonsByRole 0));
                 trace := trace w ++ strategyB_events (page w) |})
        else (Ok false, after w [Counted BasePage.buttonsByRole])
    end.
Proof.
  unfold BasePage.guarded. rewrite catch_apply.
  unfold BasePage.method2. rewrite bind_apply.
  unfold count at 1, probe. unfold strategyB_events, roleButtons.
  destruct (pw_count B (page w) BasePage.buttonsByRole) as [n|e].
  - destruct (Nat.ltb 0 n); [|reflexivity].
    unfold logger.info. rewrite bind_apply, log_apply. cbv beta iota.
    rewrite bind_apply, guarded_click. cbv beta iota.
    tidy.
  - unfold logger.warn. rewrite bind_apply, log_apply. tidy.
Qed.

Lemma method3_run selectors : forall w,
  BasePage.method3 B selectors w
  = match find (fun s => reportsVisible (page w) (banner s)) selectors with
    | Some s =>
        (Ok true,
         {| page := snd (pw_click B (page w) (BasePage.acceptButtonIn (banner s)));
            trace := trace w ++ map Probed (scanned (page w) (map banner selectors))
                             ++ strategyC_events (page w) s |})
    | None =>
        (Ok false, after w (map Probed (scanned (page w) (map banner selectors))))
    end.
Proof.
  induction selectors as [|sel rest IH]; intros w.
  - cbn. now rewrite after_nil.
  - cbn [BasePage.method3]. rewrite bind_apply, probe_orElse. cbv beta iota.
    cbn [find map scanned]. fold (banner sel).
    destruct (reportsVisible (page w) (banner sel)) eqn:E.
    + unfold logger.info. rewrite bind_apply, log_apply. cbv beta iota.
      rewrite bind_apply, guarded_click. cbv beta iota.
      cbn. unfold strategyC_events. tidy.
    + rewrite IH. cbn [page after].
      destruct (find _ rest) as [s|].
      * tidy.
      * unfold after. tidy.
Qed.

Lemma method3_guarded selectors w :
  BasePage.guarded B "Method 3" (BasePage.method3 B selectors) w
  = BasePage.method3 B selectors w.
Proof.
  unfold BasePage.guarded. rewrite catch_apply, method3_run.
  now destruct (find _ selectors).
Qed.

Lemma acceptCookies_screenshot_fails w e :
  pw_screenshot B (page w) "./ui/reports/screenshots/before-cookie-handling.png" = Throw e ->
  BasePage.acceptCookies B lower w = (Throw e, after w opening).
Proof.
  intros H. unfold BasePage.acceptCookies, logger.info.
  rewrite bind_apply, log_apply. cbv beta iota.
  rewrite bind_apply. unfold screenshot, probe. cbn [page after]. rewrite H.
  tidy.
Qed.

Lemma acceptCookies_probe_fails w e :
  pw_screenshot B (page w) "./ui/reports/screenshots/before-cookie-handling.png" = Ok tt ->
  pw_innerText B (page w) = Throw e ->
  BasePage.acceptCookies B lower w = (Throw e, after w (opening ++ [Evaluated])).
Proof.
  intros H1 H2. unfold BasePage.acceptCookies, logger.info.
  rewrite bind_apply, log_apply. cbv beta iota.
  rewrite bind_apply. unfold screenshot, probe at 1. cbn [page after]. rewrite H1.
  cbv beta iota. rewrite bind_apply. unfold evaluate, probe. cbn [page record after].
  rewrite H2. tidy.
Qed.

Lemma acceptCookies_silent w t :
  pw_screenshot B (page w) "./ui/reports/screenshots/before-cookie-handling.png" = Ok tt ->
  pw_innerText B (page w) = Ok t ->
  BasePage.mentionsCookies lower t = false ->
  BasePage.acceptCookies B lower w
  = (Ok tt,
     after w (opening ++
              [Evaluated;
               Logged (INFO, "No cookie banner detected on page - skipping cookie handling")])).
Proof.
  intros H1 H2 H3. unfold BasePage.acceptCookies, logger.info.
  rewrite bind_apply, log_apply. cbv beta iota.
  rewrite bind_apply. unfold screenshot, probe at 1. cbn [page after]. rewrite H1.
  cbv beta iota. rewrite bind_apply. unfold evaluate, probe. cbn [page record after].
  rewrite H2. cbv beta iota. rewrite H3. cbn [negb]. rewrite log_apply.
  cbn. unfold after. tidy.
Qed.

Lemma acceptCookies_strategies w t :
  pw_screenshot B (page w) "./ui/reports/screenshots/before-cookie-handling.png" = Ok tt ->
  pw_innerText B (page w) = Ok t ->
  BasePage.mentionsCookies lower t = true ->
  BasePage.acceptCookies B lower w
  = (Ok tt,
     {| page := landing (page w);
        trace := trace w ++ opening ++ Evaluated :: strategyTrace (page w) |}).
Proof.
  intros H1 H2 H3. unfold BasePage.acceptCookies, logger.info.
  rewrite bind_apply, log_apply. cbv beta iota.
  rewrite bind_apply. unfold screenshot, probe at 1. cbn [page after]. rewrite H1.
  cbv beta iota. rewrite bind_apply. unfold evaluate, probe. cbn [page record after].
  rewrite H2. cbv beta iota. rewrite H3. cbn [negb].
  rewrite bind_apply, method1_run. cbn [page after record].
  unfold landing, selected, strategyTrace.
  destruct (reportsVisible (page w) BasePage.dataAttrButton) eqn:EA.
  { tidy. }
  cbv beta iota. rewrite bind_apply, method2_run. cbn [page after record].
  unfold roleButtons.
  destruct (pw_count B (page w) BasePage.buttonsByRole) as [n|e] eqn:EB.
  - destruct (Nat.ltb 0 n) eqn:En.
    { unfold strategyB_events, roleButtons. rewrite EB. tidy. }
    cbv beta iota. rewrite bind_apply, method3_guarded, method3_run.
    cbn [page after record]. unfold bannerTrace.
    destruct (find _ BasePage.cookieBanners) as [s|] eqn:EC.
    + tidy.
    + cbv beta iota. rewrite log_apply. tidy.
  - cbn [Nat.ltb Nat.leb]. cbv beta iota.
    rewrite bind_apply, method3_guarded, method3_run.
    cbn [page after record]. unfold bannerTrace.
    destruct (find _ BasePage.cookieBanners) as [s|] eqn:EC.
    + tidy.
    + cbv beta iota. rewrite log_apply. tidy.
Qed.

(** ** Reading a trace *)

Lemma calls_app (a b : list Event) : calls (a ++ b) = calls a ++ calls b.
Proof. apply filter_app. Qed.

Lemma calls_clickLog pref o : calls (clickLog pref o) = [].
Proof. now destruct o. Qed.

Lemma calls_probed ls : calls (map Probed ls) = map Probed ls.
Proof. induction ls; cbn; [reflexivity|now f_equal]. Qed.

Lemma clicksIn_app (a b : list Event) : clicksIn (a ++ b) = clicksIn a ++ clicksIn b.
Proof. apply flat_map_app. Qed.

Lemma clicksIn_clickLog pref o : clicksIn (clickLog pref o) = [].
Proof. now destruct o. Qed.

Lemma clicksIn_probed ls : clicksIn (map Probed ls) = [].
Proof. induction ls; cbn; [reflexivity|assumption]. Qed.

Lemma calls_cons e t :
  calls (e :: t) = (match e with Logged _ => [] | _ => [e] end) ++ calls t.
Proof. now destruct e. Qed.

Lemma clicksIn_cons e t :
  clicksIn (e :: t) = (match e with Clicked l => [l] | _ => [] end) ++ clicksIn t.
Proof. reflexivity. Qed.

Ltac read_trace :=
  repeat (rewrite ?calls_app, ?calls_cons, ?calls_clickLog, ?calls_probed,
                  ?clicksIn_app, ?clicksIn_cons, ?clicksIn_clickLog, ?clicksIn_probed;
          cbn [app calls clicksIn filter flat_map]).

Lemma calls_bannerTrace (p : Page B) :
  calls (bannerTrace p)
  = map Probed (scanned p (map banner BasePage.cookieBanners))
    ++ map Clicked (clickOf (option_map StrategyC
         (find (fun s => reportsVisible p (banner s)) BasePage.cookieBanners))).
Proof.
  unfold bannerTrace. rewrite calls_app, calls_probed. f_equal.
  destruct (find _ BasePage.cookieBanners) as [s|]; [|reflexivity].
  unfold strategyC_events. read_trace. reflexivity.
Qed.

Lemma clicksIn_bannerTrace (p : Page B) :
  clicksIn (bannerTrace p)
  = clickOf (option_map StrategyC
      (find (fun s => reportsVisible p (banner s)) BasePage.cookieBanners)).
Proof.
  unfold bannerTrace. rewrite clicksIn_app, clicksIn_probed.
  destruct (find _ BasePage.cookieBanners) as [s|]; [|reflexivity].
  unfold strategyC_events. read_trace. reflexivity.
Qed.

Lemma calls_strategyTrace (p : Page B) :
  calls (strategyTrace p) = attempts p ++ map Clicked (clickOf (selected p)).
Proof.
  unfold strategyTrace, attempts, selected, roleButtons.
  destruct (reportsVisible p BasePage.dataAttrButton).
  { unfold strategyA_events. read_trace. reflexivity. }
  destruct (pw_count B p BasePage.buttonsByRole) as [n|e].
  - destruct (Nat.ltb 0 n).
    + unfold strategyB_events. read_trace. reflexivity.
    + rewrite !calls_cons, calls_bannerTrace. reflexivity.
  - rewrite !calls_cons, calls_bannerTrace. reflexivity.
Qed.

Lemma clicksIn_strategyTrace (p : Page B) :
  clicksIn (strategyTrace p) = clickOf (selected p).
Proof.
  unfold strategyTrace, selected, roleButtons.
  destruct (reportsVisible p BasePage.dataAttrButton).
  { unfold strategyA_events. read_trace. reflexivity. }
  destruct (pw_count B p BasePage.buttonsByRole) as [n|e].
  - destruct (Nat.ltb 0 n).
    + unfold strategyB_events. read_trace. reflexivity.
    + rewrite !clicksIn_cons, clicksIn_bannerTrace. reflexivity.
  - rewrite !clicksIn_cons, clicksIn_bannerTrace. reflexivity.
Qed.

(** A failed click of the handler leaves a warning with the error's
    message. *)
Lemma clickLog_logged pref o l e before :
  In (Clicked l) (before ++ clickLog pref o) ->
  (In (Clicked l) before -> o = Throw e) ->
  In (Logged (WARN, (pref ++ message e)%string)) (before ++ clickLog pref o).
Proof.
  intros Hin Ho. apply in_or_app. right.
  apply in_app_or in Hin. destruct Hin as [Hin|Hin].
  - rewrite (Ho Hin). now left.
  - destruct o; cbn in Hin; [contradiction|]. destruct Hin as [Hin|[]]. discriminate.
Qed.

Lemma bannerTrace_click_logged (p : Page B) l e :
  In (Clicked l) (bannerTrace p) ->
  fst (pw_click B p l) = Throw e ->
  exists pref, In (Logged (WARN, (pref ++ message e)%string)) (bannerTrace p).
Proof.
  unfold bannerTrace. intros Hin Hc.
  apply in_app_or in Hin. destruct Hin as [Hin|Hin].
  { apply in_map_iff in Hin. destruct Hin as [x [Hx _]]. discriminate. }
  destruct (find _ BasePage.cookieBanners) as [s|].
  - exists "Found banner but failed to click accept button: "%string.
    apply in_or_app. right. unfold strategyC_events in *.
    apply clickLog_logged with (l := l); [assumption|].
    intros [H|[H|[]]]; [discriminate|]. injection H as <-. exact Hc.
  - destruct Hin as [Hin|[]]. discriminate.
Qed.

Lemma strategyTrace_click_logged (p : Page B) l e :
  In (Clicked l) (strategyTrace p) ->
  fst (pw_click B p l) = Throw e ->
  exists pref, In (Logged (WARN, (pref ++ message e)%string)) (strategyTrace p).
Proof.
  unfold strategyTrace.
  destruct (reportsVisible p BasePage.dataAttrButton).
  { intros Hin Hc. exists "Failed to click button with data attribute: "%string.
    unfold strategyA_events in *.
    apply clickLog_logged with (l := l); [assumption|].
    intros [H|[H|[H|[]]]]; try discriminate. injection H as <-. exact Hc. }
  destruct (pw_count B p BasePage.buttonsByRole) as [n|e'].
  - destruct (Nat.ltb 0 n).
    + intros Hin Hc. exists "Failed to click button by role: "%string.
      right. destruct Hin as [Hin|Hin]; [discriminate|].
      unfold strategyB_events in *.
      apply clickLog_logged with (l := l); [assumption|].
      intros [H|[H|[H|[]]]]; try discriminate. injection H as <-. exact Hc.
    + intros Hin Hc. destruct Hin as [Hin|[Hin|Hin]]; try discriminate.
      destruct (bannerTrace_click_logged p l e Hin Hc) as [pref Hp].
      exists pref. right. right. exact Hp.
  - intros Hin Hc. destruct Hin as [Hin|[Hin|[Hin|Hin]]]; try discriminate.
    destruct (bannerTrace_click_logged p l e Hin Hc) as [pref Hp].
    exists pref. do 3 right. exact Hp.
Qed.

Lemma landing_none (p : Page B) : selected p = None -> landing p = p.
Proof. unfold landing. now intros ->. Qed.


Lemma nothingToAccept_landing (p : Page B) t :
  pw_innerText B p = Ok t -> BasePage.mentionsCookies lower t = true ->
  nothingToAccept lower p -> selected p = None.
Proof.
  intros Ht Hm [Hs|Hn]; [|exact Hn].
  rewrite (Hs t Ht) in Hm. discriminate.
Qed.

(** One run of the handler, on any page. *)
Lemma handleCookieConsent_run w :
  exists p' events,
    PlatformPage.handleCookieConsent B lower w
    = (Ok tt, {| page := p'; trace := trace w ++ events |})
    /\ (forall e, pw_screenshot B (page w) shot = Ok tt ->
                  pw_innerText B (page w) = Throw e ->
                  In (Logged (WARN, ("Cookie handling error: " ++ message e)%string)) events)
    /\ (forall l e, In (Clicked l) events ->
                    fst (pw_click B (page w) l) = Throw e ->
                    exists pref, In (Logged (WARN, (pref ++ message e)%string)) events)
    /\ (nothingToAccept lower (page w) -> p' = page w /\ clicksIn events = []).
Proof.
  unfold PlatformPage.handleCookieConsent. rewrite catch_apply.
  destruct (pw_screenshot B (page w) shot) as [[]|e1] eqn:Hs.
  2:{ rewrite (acceptCookies_screenshot_fails w e1 Hs).
      unfold logger.warn. rewrite log_apply.
      eexists; eexists; split; [tidy|]. cbn.
      repeat split; try discriminate.
      intros l e [H|[H|[H|[]]]]; discriminate. }
  destruct (pw_innerText B (page w)) as [t|e2] eqn:Ht.
  2:{ rewrite (acceptCookies_probe_fails w e2 Hs Ht).
      unfold logger.warn. rewrite log_apply.
      eexists; eexists; split; [tidy|]. cbn.
      repeat split.
      - intros e _ [= <-]. do 3 right. now left.
      - intros l e [H|[H|[H|[H|[]]]]]; discriminate. }
  destruct (BasePage.mentionsCookies lower t) eqn:Hm.
  - rewrite (acceptCookies_strategies w t Hs Ht Hm).
    eexists; eexists; split; [reflexivity|].
    repeat split.
    + discriminate.
    + intros l e Hin Hc. unfold opening in Hin.
      destruct Hin as [H|[H|[H|Hin]]]; try discriminate.
      destruct (strategyTrace_click_logged (page w) l e Hin Hc) as [pref Hp].
      exists pref. unfold opening. do 3 right. exact Hp.
    + apply landing_none. eapply nothingToAccept_landing; eassumption.
    + unfold opening. read_trace. rewrite clicksIn_strategyTrace.
      rewrite (nothingToAccept_landing (page w) t Ht Hm H). reflexivity.
  - rewrite (acceptCookies_silent w t Hs Ht Hm).
    eexists; eexists; split; [reflexivity|].
    repeat split; try discriminate.
    intros l e [H|[H|[H|[H|[]]]]]; discriminate.
Qed.

End Facts.

(** ** Clicks, waits and scans that find nothing *)

Section Clicks.
Variable B : Browser.
Implicit Types (w : World B) (l : Locator).

Lemma reportsVisible_false (p : Page B) l :
  pw_isVisible B p l <> Ok true -> reportsVisible p l = false.
Proof.
  unfold reportsVisible. destruct (pw_isVisible B p l) as [[|]|]; congruence.
Qed.


Lemma click_apply l w :
  click l w
  = (fst (pw_click B (page w) l),
     {| page := snd (pw_click B (page w) l); trace := trace w ++ [Clicked l] |}).
Proof. unfold click, act. now destruct (pw_click B (page w) l). Qed.



(** ** clickContinueWithEmail *)


End Clicks.


Section Resolution.
Variable B : Browser.
Implicit Types (w : World B) (l : Locator).

Lemma isCookieConsentVisible_run w :
  PlatformPage.isCookieConsentVisible B w
  = match pw_count B (page w) PlatformPage.cookieConsentContainer with
    | Throw _ => (Ok false, after w [Counted PlatformPage.cookieConsentContainer])
    | Ok n =>
        let firstFive :=
          map (nth PlatformPage.cookieConsentContainer) (seq 0 (Nat.min n 5)) in
        if existsb (reportsVisible (page w)) firstFive then
          (Ok true,
           after w (Counted PlatformPage.cookieConsentContainer
                    :: map Probed (scanned (page w) firstFive)))
        else
          (Ok (reportsVisible (page w) PlatformPage.acceptButton),
           after w (Counted PlatformPage.cookieConsentContainer
                    :: map Probed (scanned (page w) firstFive)
                    ++ [Probed PlatformPage.acceptButton]))
    end.
Proof.
  unfold PlatformPage.isCookieConsentVisible.
  rewrite catch_apply, bind_apply. unfold count at 1, probe.
  destruct (pw_count B (page w) PlatformPage.cookieConsentContainer) as [n|e];
    [|reflexivity].
  cbv beta iota zeta. rewrite bind_apply.
  assert (H : (if Nat.ltb 0 n
               then PlatformPage.anyOfFirst B PlatformPage.cookieConsentContainer
                      (seq 0 (Nat.min n 5))
               else ret false)
              = PlatformPage.anyOfFirst B PlatformPage.cookieConsentContainer
                  (seq 0 (Nat.min n 5))).
  { destruct n; reflexivity. }
  rewrite H, anyOfFirst_scan. cbn [page record]. cbv beta iota.
  destruct (existsb _ _).
  - tidy.
  - rewrite bind_apply, probe_orElse. cbn [page after].
    cbn [page after record].
    destruct (reportsVisible (page w) PlatformPage.acceptButton); tidy.
Qed.

Lemma existsb_none (p : Page B) (ls : list Locator) :
  Forall (fun c => pw_isVisible B p c <> Ok true) ls ->
  existsb (reportsVisible p) ls = false.
Proof.
  induction 1 as [|c ls Hc _ IH]; cbn; [reflexivity|].
  now rewrite (reportsVisible_false B p c Hc).
Qed.

Lemma filter_none (p : Page B) (os : list PlatformPage.LoginOption) :
  Forall (fun c => pw_isVisible B p c <> Ok true) (map PlatformPage.element os) ->
  filter (fun o => reportsVisible p (PlatformPage.element o)) os = [].
Proof.
  induction os as [|o os IH]; cbn; [reflexivity|].
  intros H. inversion H as [|? ? Ho Hos]; subst.
  rewrite (reportsVisible_false B p _ Ho). auto.
Qed.
End Resolution.

(** ** The webhook receiver *)

Section Webhook.
Variable hmac : string -> string -> string.
Variable secret : string.

Lemma digest_inj (x y : string) :
("sha256=" ++ x)%string = ("sha256=" ++ y)%string -> x = y.
Proof. cbn. congruence. Qed.

Lemma verifySignature_iff (header : string) (b : JSON) :
Server.verifySignature hmac secret header b = true
<-> header = ("sha256=" ++ hmac secret (JSON_stringify b))%string.
Proof. unfold Server.verifySignature. apply String.eqb_eq. Qed.

Lemma signed_accepted (b : JSON) :
Server.rejected hmac secret (signed hmac secret b) = false.
Proof.
unfold Server.rejected, signed, Server.verifySignature. cbn.
now rewrite String.eqb_refl.
Qed.

(** A request is turned away exactly when the header is missing or is
  not the digest of the body. *)
Lemma rejected_iff (req : Server.Request) :
Server.rejected hmac secret req = false
<-> Server.headers req "x-webhook-signature"
    = Some ("sha256=" ++ hmac secret (JSON_stringify (Server.body req)))%string.
Proof.
unfold Server.rejected.
destruct (Server.headers req "x-webhook-signature") as [sig|].
- split.
  + intros H. apply orb_false_iff in H. destruct H as [_ H].
    apply negb_false_iff, verifySignature_iff in H. now subst.
  + intros [= ->]. apply orb_false_iff. split.
    * reflexivity.
    * apply negb_false_iff, verifySignature_iff. reflexivity.
- split; discriminate.
Qed.

(** A rejected request gets the 401 answer and one warning; nothing of
  the handler's body runs. *)
Lemma rejected_answer (req : Server.Request) (logs : list LogEntry) :
Server.rejected hmac secret req = true ->
Server.postTestResults hmac secret req logs
= (Ok Server.invalidSignature, logs ++ [(WARN, "Invalid webhook signature")])
/\ Server.postCiTrigger hmac secret req logs
   = (Ok Server.invalidSignature, logs ++ [(WARN, "Invalid webhook signature")]).
Proof.
intros H. unfold Server.postTestResults, Server.postCiTrigger. rewrite H.
split; reflexivity.
Qed.

(** A request that verifies is answered 200 when what the handler reads
    of the body is there: [testResults] is neither absent nor [null], and
    the fields it logs print. *)
Lemma accepted_test_results (req : Server.Request) (logs : list LogEntry)
      (testResults buildId runId summary : Value) (b r s : string) :
  Server.rejected hmac secret req = false ->
  destructure (Some (Server.body req)) "testResults" = Ok testResults ->
  destructure (Some (Server.body req)) "buildId" = Ok buildId ->
  destructure (Some (Server.body req)) "runId" = Ok runId ->
  ToString buildId = Ok b ->
  ToString runId = Ok r ->
  getProp testResults "summary" = Ok summary ->
  ToString summary = Ok s ->
  Server.postTestResults hmac secret req logs
  = (Ok Server.success,
     logs ++ [(INFO, ("Received test results webhook for build " ++ b ++ ", run " ++ r)%string);
              (INFO, ("Test summary: " ++ s)%string)]).
Proof.
  intros Hv H1 H2 H3 H4 H5 H6 H7. unfold Server.postTestResults.
  rewrite Hv, H1, H2, H3. cbn. rewrite H4, H5. cbn. rewrite H6, H7. cbn.
  rewrite <- app_assoc. reflexivity.
Qed.

Lemma accepted_ci_trigger (req : Server.Request) (logs : list LogEntry)
      (repository branch commit action : Value) (rp br cm ac : string) :
  Server.rejected hmac secret req = false ->
  destructure (Some (Server.body req)) "repository" = Ok repository ->
  destructure (Some (Server.body req)) "branch" = Ok branch ->
  destructure (Some (Server.body req)) "commit" = Ok commit ->
  destructure (Some (Server.body req)) "action" = Ok action ->
  ToString repository = Ok rp ->
  ToString branch = Ok br ->
  ToString commit = Ok cm ->
  ToString action = Ok ac ->
  Server.postCiTrigger hmac secret req logs
  = (Ok Server.success,
     logs ++ [(INFO, ("Received CI trigger webhook for " ++ rp ++ "/" ++ br
                      ++ " (" ++ cm ++ ")")%string);
              (INFO, ("Action: " ++ ac)%string)]).
Proof.
  intros Hv H1 H2 H3 H4 H5 H6 H7 H8. unfold Server.postCiTrigger.
  rewrite Hv, H1, H2, H3, H4. cbn. rewrite H5, H6, H7. cbn. rewrite H8. cbn.
  rewrite <- app_assoc. reflexivity.
Qed.

Lemma health_answer (path : string) (req : Server.Request) :
  Server.strictJson (Server.body req) = true ->
  Server.matches "/health" path = true ->
  Server.app hmac secret Server.GET path req
  = ({| Server.status := 200;
        Server.payload := Server.Json (JObject [("status", JString "healthy")]) |}, []).
Proof.
  intros Hb Hp. unfold Server.app, Server.route. rewrite Hb, Hp. reflexivity.
Qed.

End Webhook.

(* ===================================================================== *)
(** * The claims *)
(* ===================================================================== *)

(** C1. For every secret and JSON body, [verifySignature] accepts exactly
    the header ["sha256="] followed by the hex HMAC-SHA256 of the
    serialised body: that header is accepted, every other header string is
    rejected, and a valid signature for a body is rejected when presented
    with a body whose serialised form differs.  The last part is as strong
    as the hash: it assumes that the key does not send the two
    serialisations to the same digest. *)
Theorem verifySignature_accepts_exactly_the_digest
        (hmac : string -> string -> string) (secret : string) (b : JSON) :
  let valid := ("sha256=" ++ hmac secret (JSON_stringify b))%string in
  Server.verifySignature hmac secret valid b = true
  /\ (forall header, header <> valid ->
        Server.verifySignature hmac secret header b = false)
  /\ (forall b',
        JSON_stringify b' <> JSON_stringify b ->
        (hmac secret (JSON_stringify b') = hmac secret (JSON_stringify b) ->
         JSON_stringify b' = JSON_stringify b) ->
        Server.verifySignature hmac secret valid b' = false).
Proof.
  cbv zeta. split; [|split].
  - apply verifySignature_iff. reflexivity.
  - intros header H. apply not_true_is_false. intros E.
    apply verifySignature_iff in E. contradiction.
  - intros b' Hdiff Hfree. apply not_true_is_false. intros E.
    apply verifySignature_iff, digest_inj in E. symmetry in E. auto.
Qed.

(** The signature of the spec's scenario body under the default secret,
    computed with HMAC-SHA256, and replayed on a body that differs. *)
Lemma verifySignature_accepts_exactly_the_digest_witness :
  Server.verifySignature NodeCrypto.hmacSha256Hex Examples.secret
    "sha256=1e36b9bfce54eedfb8f0b145c9523f12967458ff119f2ccc6290df0e3ccf0ff5"
    Examples.fivePassed = true
  /\ Server.verifySignature NodeCrypto.hmacSha256Hex Examples.secret
       "sha256=1e36b9bfce54eedfb8f0b145c9523f12967458ff119f2ccc6290df0e3ccf0ff5"
       Examples.sixPassed = false.
Proof.
  destruct (verifySignature_accepts_exactly_the_digest
              NodeCrypto.hmacSha256Hex Examples.secret Examples.fivePassed)
    as [Hvalid [_ Hother]].
  split.
  - exact Hvalid.
  - apply (Hother Examples.sixPassed).
    + vm_compute. discriminate.
    + intros E. vm_compute in E. discriminate.
Defined.

(** C2, at the input where the code departs from it.  A request to
    [POST /webhook/test-results] whose body is the empty object, correctly
    signed, passes the signature check; the handler then reads
    [testResults.summary] of an absent [testResults] and throws, so Express
    answers 500 where the claim promises 200 with status success.  The
    same request sent to [POST /webhook/ci-trigger], whose handler reads
    no property of a property, is answered 200. *)
Theorem postTestResults_throws_on_signed_body_without_testResults
        (hmac : string -> string -> string) (secret : string) :
  let req := signed hmac secret (JObject []) in
  Server.rejected hmac secret req = false
  /\ Server.postTestResults hmac secret req []
     = (Throw (TypeError "Cannot read properties of undefined (reading 'summary')"),
        [(INFO, "Received test results webhook for build undefined, run undefined")])
  /\ fst (Server.app hmac secret Server.POST "/webhook/test-results" req)
     = {| Server.status := 500; Server.payload := Server.ErrorPage |}
  /\ fst (Server.app hmac secret Server.POST "/webhook/ci-trigger" req)
     = Server.success.
Proof.
  cbv zeta. split; [apply signed_accepted|].
  assert (H : Server.postTestResults hmac secret (signed hmac secret (JObject [])) []
              = (Throw (TypeError "Cannot read properties of undefined (reading 'summary')"),
                 [(INFO, "Received test results webhook for build undefined, run undefined")])).
  { unfold Server.postTestResults. rewrite signed_accepted. reflexivity. }
  split; [exact H|]. split.
  - unfold Server.app.
    change (Server.route hmac secret Server.POST "/webhook/test-results")
      with (Some (Server.postTestResults hmac secret)).
    cbv beta iota. rewrite H. reflexivity.
  - unfold Server.app.
    change (Server.route hmac secret Server.POST "/webhook/ci-trigger")
      with (Some (Server.postCiTrigger hmac secret)).
    cbv beta iota. unfold Server.postCiTrigger. rewrite signed_accepted. reflexivity.
Qed.

(** The spec's webhook scenario, run: the signed body is answered 200, the
    same body under an altered signature 401. *)
Example scenario_signed :
  Server.app NodeCrypto.hmacSha256Hex Examples.secret Server.POST "/webhook/test-results"
    (signed NodeCrypto.hmacSha256Hex Examples.secret Examples.fivePassed)
  = (Server.success,
     [(INFO, "Received test results webhook for build 42, run 7");
      (INFO, "Test summary: 5 passed")]).
Proof. vm_compute. reflexivity. Qed.

Example scenario_altered :
  Server.app NodeCrypto.hmacSha256Hex Examples.secret Server.POST "/webhook/test-results"
    (withHeader
       (Some "sha256=0e36b9bfce54eedfb8f0b145c9523f12967458ff119f2ccc6290df0e3ccf0ff5")
       Examples.fivePassed)
  = (Server.invalidSignature, [(WARN, "Invalid webhook signature")]).
Proof. vm_compute. reflexivity. Qed.

(** A signed CI trigger is answered 200 whenever its four fields print;
    an object with a [toString] property of its own does not. *)
Example ci_trigger_signed :
  Server.app NodeCrypto.hmacSha256Hex Examples.secret Server.POST "/webhook/ci-trigger"
    (signed NodeCrypto.hmacSha256Hex Examples.secret
       (JObject [("repository", JString "angelcardus"); ("branch", JString "main");
                 ("commit", JString "abc123"); ("action", JString "test")]))
  = (Server.success,
     [(INFO, "Received CI trigger webhook for angelcardus/main (abc123)");
      (INFO, "Action: test")]).
Proof. vm_compute. reflexivity. Qed.

(** C3 (as amended: the probe folds letter case; a strategy ends the
    handler once its target is found).  For every lower-casing [lower] of
    the page's engine: after its screenshot,
    [acceptCookies] reads the page text; if the lower-cased text contains
    none of "cookie", "consent", "privacy" it returns without a probe or a
    click of any strategy and leaves the page as it is.  Otherwise it tries
    Strategy A (the [data-cky-tag] accept button, if visible), then
    Strategy B (buttons named Accept, Accept All, OK or Agree, if any),
    then Strategy C (the known banner containers in their fixed order, the
    first visible one), in that order and without going back: the probes it
    makes are those up to the first strategy that finds its target, it
    clicks that target once, and the page it leaves is the one the click
    produced. *)
Theorem acceptCookies_linear_strategies
        (B : Browser) (lower : string -> string) (w : World B) (t : string) :
  pw_screenshot B (page w) shot = Ok tt ->
  pw_innerText B (page w) = Ok t ->
  let w' := snd (BasePage.acceptCookies B lower w) in
  fst (BasePage.acceptCookies B lower w) = Ok tt
  /\ (includes (lower t) "cookie" = false ->
      includes (lower t) "consent" = false ->
      includes (lower t) "privacy" = false ->
      page w' = page w
      /\ calls (trace w') = calls (trace w) ++ [Screenshot shot; Evaluated])
  /\ (includes (lower t) "cookie" = true
      \/ includes (lower t) "consent" = true
      \/ includes (lower t) "privacy" = true ->
      page w' = match selected (page w) with
                | Some s => snd (pw_click B (page w) (target s))
                | None => page w
                end
      /\ calls (trace w')
         = calls (trace w) ++ [Screenshot shot; Evaluated]
           ++ attempts (page w)
           ++ match selected (page w) with
              | Some s => [Clicked (target s)]
              | None => []
              end).
Proof.
  intros Hs Ht. cbv zeta.
  destruct (BasePage.mentionsCookies lower t) eqn:Hm.
  - rewrite (acceptCookies_strategies B lower w t Hs Ht Hm). cbn [fst snd page trace].
    split; [reflexivity|]. split.
    + intros H1 H2 H3. unfold BasePage.mentionsCookies in Hm.
      rewrite H1, H2, H3 in Hm. discriminate.
    + intros _. split; [reflexivity|].
      rewrite calls_app. f_equal. unfold opening.
      cbn [app]. rewrite !calls_cons, calls_strategyTrace. cbn [app]. do 3 f_equal.
      now destruct (selected (page w)).
  - rewrite (acceptCookies_silent B lower w t Hs Ht Hm). cbn [fst snd page trace after].
    split; [reflexivity|]. split.
    + intros _ _ _. split; [reflexivity|].
      rewrite calls_app. reflexivity.
    + unfold BasePage.mentionsCookies in Hm.
      apply orb_false_iff in Hm. destruct Hm as [Hm H3].
      apply orb_false_iff in Hm. destruct Hm as [H1 H2].
      rewrite H1, H2, H3. intros [H|[H|H]]; discriminate.
Qed.

(** On a banner that only Strategy C recognises: A and B are tried first,
    the containers in order, and the second one is clicked. *)
Lemma acceptCookies_linear_strategies_witness :
  calls (trace (snd (BasePage.acceptCookies Scripted.browser Examples.engine
                       (Scripted.start Examples.classBanner))))
  = [Screenshot shot; Evaluated;
     Probed BasePage.dataAttrButton; Counted BasePage.buttonsByRole;
     Probed (banner ".cookie-banner"); Probed (banner ".cookie-consent");
     Clicked (BasePage.acceptButtonIn (banner ".cookie-consent"))].
Proof.
  destruct (acceptCookies_linear_strategies Scripted.browser Examples.engine
              (Scripted.start Examples.classBanner) "This site uses cookies"
              eq_refl eq_refl) as [_ [_ H]].
  destruct (H (or_introl eq_refl)) as [_ Hcalls]. exact Hcalls.
Defined.

(** C3 as first stated fails: this page's text contains none of the three
    substrings (it is in capitals, all ASCII), yet the handler goes on to
    Strategy A and clicks.  And a strategy ends the handler by finding its target,
    not by a click that worked: on the second page the click of Strategy A
    fails under an overlay, and Strategies B and C are not tried. *)
Lemma acceptCookies_probe_ignores_case :
  Scripted.bodyText Examples.shoutingBanner
  = Some "WE VALUE YOUR PRIVACY - ACCEPT ALL COOKIES"
  /\ includes "WE VALUE YOUR PRIVACY - ACCEPT ALL COOKIES" "cookie" = false
  /\ includes "WE VALUE YOUR PRIVACY - ACCEPT ALL COOKIES" "consent" = false
  /\ includes "WE VALUE YOUR PRIVACY - ACCEPT ALL COOKIES" "privacy" = false
  /\ calls (trace (snd (BasePage.acceptCookies Scripted.browser Examples.engine
                          (Scripted.start Examples.shoutingBanner))))
     = [Screenshot shot; Evaluated;
        Probed BasePage.dataAttrButton; Clicked BasePage.dataAttrButton]
  /\ fst (pw_click Scripted.browser Examples.coveredButton BasePage.dataAttrButton)
     = Throw Scripted.timeoutError
  /\ calls (trace (snd (BasePage.acceptCookies Scripted.browser Examples.engine
                          (Scripted.start Examples.coveredButton))))
     = [Screenshot shot; Evaluated;
        Probed BasePage.dataAttrButton; Clicked BasePage.dataAttrButton].
Proof. repeat split. Qed.



(** "Book now" holds the "OK" of Strategy B's pattern. *)
Example book_now_holds_ok :
  includes (toLowerCase "Book now") (toLowerCase "OK") = true.
Proof. reflexivity. Qed.





(** C6. Whatever the candidates, the resolution operations [isVisible],
    [isEnterPlatformButtonVisible] (and its loop over any candidate list)
    and [getVisibleLoginOptions] never raise: every failed probe counts as
    not visible.  When no candidate matches a visible element they return
    the not-found outcome: [false], respectively the empty list. *)
Theorem resolution_not_found_never_raises
        (B : Browser) (w : World B) (l : Locator) (candidates : list Locator) :
  (isOk (fst (BasePage.isVisible B l w)) = true
   /\ isOk (fst (HomePage.anyButtonVisible B candidates w)) = true
   /\ isOk (fst (HomePage.isEnterPlatformButtonVisible B w)) = true
   /\ isOk (fst (PlatformPage.getVisibleLoginOptions B w)) = true)
  /\ (pw_isVisible B (page w) l <> Ok true ->
      (forall i, pw_isVisible B (page w) (nth l i) <> Ok true) ->
      fst (BasePage.isVisible B l w) = Ok false)
  /\ (Forall (fun c => pw_isVisible B (page w) c <> Ok true) candidates ->
      fst (HomePage.anyButtonVisible B candidates w) = Ok false)
  /\ (Forall (fun c => pw_isVisible B (page w) c <> Ok true) HomePage.possibleButtons ->
      fst (HomePage.isEnterPlatformButtonVisible B w) = Ok false)
  /\ (Forall (fun c => pw_isVisible B (page w) c <> Ok true)
             (map PlatformPage.element registry) ->
      fst (PlatformPage.getVisibleLoginOptions B w) = Ok []).
Proof.
  unfold HomePage.isEnterPlatformButtonVisible.
  rewrite isVisible_run, !anyButtonVisible_scan, getVisibleLoginOptions_run.
  cbv zeta. split; [|split; [|split; [|split]]].
  - repeat split.
    destruct (Nat.ltb 1 _); [reflexivity|]. destruct (Nat.eqb _ 1); reflexivity.
  - intros Hl Hn.
    destruct (Nat.ltb 1 _).
    + cbn [fst]. f_equal. apply existsb_none. apply Forall_forall.
      intros c Hc. apply in_map_iff in Hc. destruct Hc as [i [<- _]]. apply Hn.
    + destruct (Nat.eqb _ 1); [|reflexivity].
      cbn [fst]. f_equal. now apply reportsVisible_false.
  - intros H. cbn [fst]. f_equal. now apply existsb_none.
  - intros H. cbn [fst]. f_equal. now apply existsb_none.
  - intros H. cbn [fst]. f_equal. unfold visibleOptions. now apply filter_none.
Qed.

(** On a page where all six matches of a locator are hidden but one, seen
    from a locator that matches nothing, and on the blank page. *)
Lemma resolution_not_found_never_raises_witness :
  fst (BasePage.isVisible Scripted.browser (locator ".absent")
         (Scripted.start Examples.sixMatches)) = Ok false
  /\ fst (HomePage.isEnterPlatformButtonVisible Scripted.browser
            (Scripted.start Examples.blank)) = Ok false
  /\ fst (PlatformPage.getVisibleLoginOptions Scripted.browser
            (Scripted.start Examples.blank)) = Ok [].
Proof.
  split; [|split].
  - refine (proj1 (proj2 (resolution_not_found_never_raises Scripted.browser
                            (Scripted.start Examples.sixMatches) (locator ".absent") []))
                  _ _).
    + discriminate.
    + intros [|i]; discriminate.
  - refine (proj1 (proj2 (proj2 (proj2 (resolution_not_found_never_raises
              Scripted.browser (Scripted.start Examples.blank) (locator ".absent") []))))
              _).
    repeat constructor; discriminate.
  - refine (proj2 (proj2 (proj2 (proj2 (resolution_not_found_never_raises
              Scripted.browser (Scripted.start Examples.blank) (locator ".absent") []))))
              _).
    repeat constructor; discriminate.
Defined.

(** C7 (as amended: the cap of five is [isCookieConsentVisible]'s only).
    When a locator matches several live elements, resolution probes the
    matching elements one after the other and accepts the first visible
    one: [isCookieConsentVisible] probes at most the first five matches of
    the consent container (and then falls back on the accept button),
    [BasePage.isVisible] probes every match, with no cap.  Neither raises,
    a multiple-elements error included. *)
Theorem multiple_matches_probed_in_turn (B : Browser) (w : World B) (l : Locator) (n : nat) :
  (pw_count B (page w) l = Ok n -> 1 < n ->
   let matched := map (nth l) (seq 0 n) in
   BasePage.isVisible B l w
   = (Ok (existsb (reportsVisible (page w)) matched),
      after w (Counted l :: map Probed (scanned (page w) matched))))
  /\ (pw_count B (page w) PlatformPage.cookieConsentContainer = Ok n ->
      let firstFive := map (nth PlatformPage.cookieConsentContainer) (seq 0 (Nat.min n 5)) in
      PlatformPage.isCookieConsentVisible B w
      = if existsb (reportsVisible (page w)) firstFive then
          (Ok true,
           after w (Counted PlatformPage.cookieConsentContainer
                    :: map Probed (scanned (page w) firstFive)))
        else
          (Ok (reportsVisible (page w) PlatformPage.acceptButton),
           after w (Counted PlatformPage.cookieConsentContainer
                    :: map Probed (scanned (page w) firstFive)
                    ++ [Probed PlatformPage.acceptButton])))
  /\ isOk (fst (BasePage.isVisible B l w)) = true
  /\ isOk (fst (PlatformPage.isCookieConsentVisible B w)) = true.
Proof.
  rewrite isVisible_run, isCookieConsentVisible_run. cbv zeta.
  split; [|split; [|split]].
  - intros -> Hn. apply Nat.ltb_lt in Hn. now rewrite Hn.
  - intros ->. reflexivity.
  - destruct (Nat.ltb 1 _); [reflexivity|]. destruct (Nat.eqb _ 1); reflexivity.
  - destruct (pw_count B (page w) PlatformPage.cookieConsentContainer); [|reflexivity].
    destruct (existsb _ _); reflexivity.
Qed.

(** Six matches, the sixth alone visible: found by the one, out of reach
    of the other. *)
Lemma multiple_matches_probed_in_turn_witness :
  fst (BasePage.isVisible Scripted.browser Examples.options
         (Scripted.start Examples.sixMatches)) = Ok true
  /\ PlatformPage.isCookieConsentVisible Scripted.browser
       (Scripted.start Examples.sixMatches)
     = (Ok false,
        after (Scripted.start Examples.sixMatches)
          (Counted PlatformPage.cookieConsentContainer
           :: map (fun i => Probed (nth PlatformPage.cookieConsentContainer i)) [0; 1; 2; 3; 4]
           ++ [Probed PlatformPage.acceptButton])).
Proof.
  destruct (multiple_matches_probed_in_turn Scripted.browser
              (Scripted.start Examples.sixMatches) Examples.options 6)
    as [Hall [Hfive _]].
  split.
  - refine (f_equal fst (Hall eq_refl _)). repeat constructor.
  - exact (Hfive eq_refl).
Defined.

(** C7 as first stated fails for [BasePage.isVisible]: with six matches
    of which only the sixth is visible it probes all six and answers
    [true]; a scan of the first five would not have found it. *)
Lemma isVisible_probes_past_five :
  BasePage.isVisible Scripted.browser Examples.options (Scripted.start Examples.sixMatches)
  = (Ok true,
     after (Scripted.start Examples.sixMatches)
       (Counted Examples.options
        :: map (fun i => Probed (nth Examples.options i)) [0; 1; 2; 3; 4; 5]))
  /\ existsb (reportsVisible (B := Scripted.browser) Examples.sixMatches)
       (map (nth Examples.options) [0; 1; 2; 3; 4]) = false.
Proof. split; reflexivity. Qed.

(** What [getVisibleLoginOptions] returns when exactly one probe of the
    registry reports a visible element. *)
Lemma login_options_single (B : Browser) (p : Page B)
      (before behind : list PlatformPage.LoginOption) (o : PlatformPage.LoginOption) :
  registry = before ++ o :: behind ->
  reportsVisible p (PlatformPage.element o) = true ->
  Forall (fun c => pw_isVisible B p c <> Ok true)
         (map PlatformPage.element (before ++ behind)) ->
  visibleOptions p = [o].
Proof.
  intros Hr Ho Hrest. unfold visibleOptions. rewrite Hr.
  rewrite map_app in Hrest. apply Forall_app in Hrest. destruct Hrest as [Hb Ha].
  rewrite filter_app. cbn [filter]. rewrite Ho.
  rewrite (filter_none B p before Hb), (filter_none B p behind Ha). reflexivity.
Qed.

(** C8, at the input where the code departs from it.  The email locator
    of this platform page matches two elements, a visible login link and a
    hidden one; no other login control is on the page.  The probe
    [continueWithEmailButton.isVisible()] fails on the two matches
    (Playwright's strict mode), [.catch(() => false)] turns the failure
    into "not visible", and the list comes back empty where the claim
    promises the single entry "Email".  ([BasePage.isVisible], which
    probes the matches one by one, finds the link; with one match, or with
    only a bare email input, the list is as claimed.) *)
Theorem getVisibleLoginOptions_misses_email_matched_twice :
  Scripted.resolve Examples.emailTwice PlatformPage.continueWithEmailButton
  = [Scripted.Visible; Scripted.Hidden]
  /\ Scripted.isVisible Examples.emailTwice PlatformPage.continueWithEmailButton
     = Throw Scripted.strictModeViolation
  /\ fst (PlatformPage.getVisibleLoginOptions Scripted.browser
            (Scripted.start Examples.emailTwice)) = Ok []
  /\ fst (BasePage.isVisible Scripted.browser PlatformPage.continueWithEmailButton
            (Scripted.start Examples.emailTwice)) = Ok true
  /\ fst (PlatformPage.getVisibleLoginOptions Scripted.browser
            (Scripted.start Examples.emailOnce))
     = Ok [{| PlatformPage.name := "Email";
              PlatformPage.element := PlatformPage.continueWithEmailButton |}]
  /\ fst (PlatformPage.getVisibleLoginOptions Scripted.browser
            (Scripted.start Examples.emailInput))
     = Ok [{| PlatformPage.name := "Email Form";
              PlatformPage.element := first (locator (dq "form input[type='email']")) |}].
Proof. repeat split. Qed.

(** C9. On a fixed page two successive calls of [getVisibleLoginOptions]
    return the same list: the entries of the registry whose probe reports
    a visible element, in the registry's fixed order (Email, Google,
    Apple, Facebook, Twitter, GitHub, Microsoft, Email Form).  The calls
    only probe, so the second sees the page the first saw. *)
Theorem getVisibleLoginOptions_deterministic (B : Browser) (w : World B) :
  let first_call := PlatformPage.getVisibleLoginOptions B w in
  let second_call := PlatformPage.getVisibleLoginOptions B (snd first_call) in
  fst first_call = Ok (visibleOptions (page w))
  /\ fst second_call = fst first_call
  /\ page (snd first_call) = page w
  /\ page (snd second_call) = page w
  /\ visibleOptions (page w)
     = filter (fun o => reportsVisible (page w) (PlatformPage.element o)) registry
  /\ map PlatformPage.name registry
     = ["Email"; "Google"; "Apple"; "Facebook"; "Twitter"; "GitHub"; "Microsoft";
        "Email Form"].
Proof.
  cbv zeta. rewrite !getVisibleLoginOptions_run. cbn [fst snd page after].
  repeat split.
Qed.



Example logo_click_lands_home :
  fst (HomePage.clickAngelCardLogo Scripted.browser HomePage.new
         (Scripted.start Examples.logoLeadsHome)) = Ok true.
Proof. reflexivity. Qed.


(* ===================================================================== *)
(** * Further properties of the code *)
(* ===================================================================== *)

(** ** The webhook handlers, answer by answer *)

Section Routes.
Variable hmac : string -> string -> string.
Variable secret : string.

Lemma destructure_field (b : JSON) (key : string) :
  Server.strictJson b = true ->
  destructure (Some b) key = Ok (field b key).
Proof. destruct b; try discriminate; reflexivity. Qed.

Lemma prints_false (v : Value) :
  prints v = false -> exists e, ToString v = Throw e.
Proof. unfold prints. destruct (ToString v) as [s|e]; [discriminate|]. now exists e. Qed.

Lemma prints_true (v : Value) :
  prints v = true -> ToString v = Ok (print v).
Proof. unfold prints, print. destruct (ToString v) as [s|e]; [reflexivity|discriminate]. Qed.

(** X1.  The handler of [POST /webhook/test-results], on a request whose
    body [express.json()] has parsed (an object or an array).  A request
    whose signature does not verify gets 401 and the one warning.  One
    that verifies gets 200 exactly when [buildId] and [runId] can be
    printed, [testResults] is present and not [null], and its [summary]
    can be printed; otherwise the handler throws, which Express answers
    with 500.  The "Received ..." line is already logged when the failure
    comes from [testResults]. *)
Theorem postTestResults_answer (req : Server.Request) (logs : list LogEntry) :
  Server.strictJson (Server.body req) = true ->
  let b := Server.body req in
  let ids := prints (field b "buildId") && prints (field b "runId") in
  let summary := match field b "testResults" with
                 | Some JNull | None => false
                 | Some testResults => prints (field testResults "summary")
                 end in
  let received :=
    (INFO, ("Received test results webhook for build " ++ print (field b "buildId")
            ++ ", run " ++ print (field b "runId"))%string) in
  let r := Server.postTestResults hmac secret req logs in
  (answer (fst r), snd r)
  = if Server.rejected hmac secret req then
      (Server.invalidSignature, logs ++ [(WARN, "Invalid webhook signature")])
    else if negb ids then (serverError, logs)
    else if negb summary then (serverError, logs ++ [received])
    else (Server.success,
          logs ++ [received;
                   (INFO, ("Test summary: "
                           ++ print (match field b "testResults" with
                                     | Some t => field t "summary"
                                     | None => undefined
                                     end))%string)]).
Proof.
  intros Hb. cbv zeta. unfold Server.postTestResults.
  destruct (Server.rejected hmac secret req); [reflexivity|].
  cbn [bind Monad_M lift].
  rewrite !(destructure_field _ _ Hb).
  destruct (prints (field (Server.body req) "buildId")) eqn:E1.
  2:{ destruct (prints_false _ E1) as [e ->]. reflexivity. }
  rewrite (prints_true _ E1).
  destruct (prints (field (Server.body req) "runId")) eqn:E2.
  2:{ destruct (prints_false _ E2) as [e ->]. reflexivity. }
  rewrite (prints_true _ E2). cbn [andb negb].
  unfold logger.info, logAt. cbn [appendLog Logging_list].
  destruct (field (Server.body req) "testResults") as [[| | | | | |props]|];
    cbn [getProp field]; try (cbn; rewrite <- ?app_assoc; reflexivity).
  destruct (prints (lookup "summary" props)) eqn:E3.
  - rewrite (prints_true _ E3). cbn [negb fst snd answer]. rewrite <- app_assoc. reflexivity.
  - destruct (prints_false _ E3) as [e ->]. reflexivity.
Qed.

(** X2.  The handler of [POST /webhook/ci-trigger], on a request whose
    body [express.json()] has parsed (an object or an array).  A request
    whose signature does not verify gets 401 and the one warning.  One
    that verifies gets 200 exactly when [repository], [branch], [commit]
    and [action] can be printed (an absent field prints as "undefined");
    otherwise the handler throws, which Express answers with 500, after the
    "Received ..." line when only [action] fails to print. *)
Theorem postCiTrigger_answer (req : Server.Request) (logs : list LogEntry) :
  Server.strictJson (Server.body req) = true ->
  let b := Server.body req in
  let heading := prints (field b "repository")
                 && prints (field b "branch") && prints (field b "commit") in
  let received :=
    (INFO, ("Received CI trigger webhook for " ++ print (field b "repository") ++ "/"
            ++ print (field b "branch") ++ " (" ++ print (field b "commit") ++ ")")%string) in
  let r := Server.postCiTrigger hmac secret req logs in
  (answer (fst r), snd r)
  = if Server.rejected hmac secret req then
      (Server.invalidSignature, logs ++ [(WARN, "Invalid webhook signature")])
    else if negb heading then (serverError, logs)
    else if negb (prints (field b "action")) then (serverError, logs ++ [received])
    else (Server.success,
          logs ++ [received; (INFO, ("Action: " ++ print (field b "action"))%string)]).
Proof.
  intros Hb. cbv zeta. unfold Server.postCiTrigger.
  destruct (Server.rejected hmac secret req); [reflexivity|].
  cbn [bind Monad_M lift].
  rewrite !(destructure_field _ _ Hb).
  destruct (prints (field (Server.body req) "repository")) eqn:E1.
  2:{ destruct (prints_false _ E1) as [e ->]. reflexivity. }
  rewrite (prints_true _ E1).
  destruct (prints (field (Server.body req) "branch")) eqn:E2.
  2:{ destruct (prints_false _ E2) as [e ->]. reflexivity. }
  rewrite (prints_true _ E2).
  destruct (prints (field (Server.body req) "commit")) eqn:E3.
  2:{ destruct (prints_false _ E3) as [e ->]. reflexivity. }
  rewrite (prints_true _ E3). cbn [andb negb].
  unfold logger.info, logAt. cbn [appendLog Logging_list].
  destruct (prints (field (Server.body req) "action")) eqn:E4.
  - rewrite (prints_true _ E4). cbn [negb fst snd answer]. rewrite <- app_assoc. reflexivity.
  - destruct (prints_false _ E4) as [e ->]. reflexivity.
Qed.

(** X3.  Each of the two webhook handlers answers 200 only to a request
    whose [X-Webhook-Signature] header is "sha256=" followed by the HMAC
    of the serialised body it was given. *)
Theorem success_needs_the_signature
        (req : Server.Request) (logs logs' : list LogEntry) (res : Server.Response) :
  Server.postTestResults hmac secret req logs = (Ok res, logs')
  \/ Server.postCiTrigger hmac secret req logs = (Ok res, logs') ->
  Server.status res = 200 ->
  Server.headers req "x-webhook-signature"
  = Some ("sha256=" ++ hmac secret (JSON_stringify (Server.body req)))%string.
Proof.
  intros H Hs. apply rejected_iff.
  destruct (Server.rejected hmac secret req) eqn:E; [|reflexivity].
  destruct (rejected_answer hmac secret req logs E) as [R1 R2].
  rewrite R1, R2 in H.
  destruct H as [H|H]; injection H as <- _; discriminate Hs.
Qed.

End Routes.

(** The signed scenario body, and the same body with an overflowing
    [buildId]: it is signed as [null] and logged as [Infinity]. *)
Lemma postTestResults_answer_witness :
  Server.postTestResults NodeCrypto.hmacSha256Hex Examples.secret
    (signed NodeCrypto.hmacSha256Hex Examples.secret Examples.fivePassed) []
  = (Ok Server.success,
     [(INFO, "Received test results webhook for build 42, run 7");
      (INFO, "Test summary: 5 passed")])
  /\ (let overflowing :=
        JObject [("testResults", JObject [("summary", JString "5 passed")]);
                 ("buildId", JInfinite false); ("runId", JNumber "7")] in
      JSON_stringify overflowing
      = dq "{'testResults':{'summary':'5 passed'},'buildId':null,'runId':7}"
      /\ snd (Server.postTestResults NodeCrypto.hmacSha256Hex Examples.secret
                (signed NodeCrypto.hmacSha256Hex Examples.secret overflowing) [])
         = [(INFO, "Received test results webhook for build Infinity, run 7");
            (INFO, "Test summary: 5 passed")]).
Proof.
  split.
  - pose proof (postTestResults_answer NodeCrypto.hmacSha256Hex Examples.secret
                  (signed NodeCrypto.hmacSha256Hex Examples.secret Examples.fivePassed)
                  [] eq_refl) as H.
    cbv zeta in H.
    destruct (Server.postTestResults NodeCrypto.hmacSha256Hex Examples.secret
                (signed NodeCrypto.hmacSha256Hex Examples.secret Examples.fivePassed) [])
      as [[res|e] l]; vm_compute in H.
    + injection H as -> ->. reflexivity.
    + discriminate H.
  - cbv zeta. split; vm_compute; reflexivity.
Defined.

(** A signed CI trigger with no field at all is answered 200. *)
Lemma postCiTrigger_answer_witness :
  Server.postCiTrigger NodeCrypto.hmacSha256Hex Examples.secret
    (signed NodeCrypto.hmacSha256Hex Examples.secret (JObject [])) []
  = (Ok Server.success,
     [(INFO, "Received CI trigger webhook for undefined/undefined (undefined)");
      (INFO, "Action: undefined")]).
Proof.
  pose proof (postCiTrigger_answer NodeCrypto.hmacSha256Hex Examples.secret
                (signed NodeCrypto.hmacSha256Hex Examples.secret (JObject []))
                [] eq_refl) as H.
  cbv zeta in H.
  destruct (Server.postCiTrigger NodeCrypto.hmacSha256Hex Examples.secret
              (signed NodeCrypto.hmacSha256Hex Examples.secret (JObject [])) [])
    as [[res|e] l]; vm_compute in H.
  - injection H as -> ->. reflexivity.
  - discriminate H.
Defined.

(** The signed scenario body is answered 200, and carries that header. *)
Lemma success_needs_the_signature_witness :
  let req := signed NodeCrypto.hmacSha256Hex Examples.secret Examples.fivePassed in
  Server.headers req "x-webhook-signature"
  = Some "sha256=1e36b9bfce54eedfb8f0b145c9523f12967458ff119f2ccc6290df0e3ccf0ff5".
Proof.
  cbv zeta.
  rewrite (success_needs_the_signature NodeCrypto.hmacSha256Hex Examples.secret
             (signed NodeCrypto.hmacSha256Hex Examples.secret Examples.fivePassed)
             [] [(INFO, "Received test results webhook for build 42, run 7");
                 (INFO, "Test summary: 5 passed")]
             Server.success).
  - vm_compute. reflexivity.
  - left. vm_compute. reflexivity.
  - reflexivity.
Defined.

(** X4.  [process.env.WEBHOOK_SECRET || 'default_secret']: with the
    variable unset, or set to the empty string, the secret is
    "default_secret", and a request signed with that string passes the
    signature check. *)
Theorem unset_secret_means_default_secret
        (hmac : string -> string -> string) (env : string -> option string) (b : JSON) :
  env "WEBHOOK_SECRET" = None \/ env "WEBHOOK_SECRET" = Some "" ->
  Server.WEBHOOK_SECRET_of env = "default_secret"
  /\ Server.rejected hmac (Server.WEBHOOK_SECRET_of env) (signed hmac "default_secret" b)
     = false.
Proof.
  intros H.
  assert (E : Server.WEBHOOK_SECRET_of env = "default_secret").
  { unfold Server.WEBHOOK_SECRET_of, Server.envOr. destruct H as [-> | ->]; reflexivity. }
  split; [exact E|]. rewrite E. apply signed_accepted.
Qed.

(** With [WEBHOOK_SECRET] set to the empty string, the scenario body
    signed with "default_secret" is answered 200. *)
Lemma unset_secret_means_default_secret_witness :
  let env := fun v => if String.eqb v "WEBHOOK_SECRET" then Some "" else None in
  Server.app NodeCrypto.hmacSha256Hex (Server.WEBHOOK_SECRET_of env)
    Server.POST "/webhook/test-results"
    (signed NodeCrypto.hmacSha256Hex "default_secret" Examples.fivePassed)
  = (Server.success,
     [(INFO, "Received test results webhook for build 42, run 7");
      (INFO, "Test summary: 5 passed")]).
Proof.
  cbv zeta.
  destruct (unset_secret_means_default_secret NodeCrypto.hmacSha256Hex
              (fun v => if String.eqb v "WEBHOOK_SECRET" then Some "" else None)
              Examples.fivePassed (or_intror eq_refl)) as [E _].
  rewrite E. vm_compute. reflexivity.
Defined.

(** ** Substring and suffix tests *)

Lemma prefix_iff (needle hay : string) :
  prefix needle hay = true <-> exists post, hay = (needle ++ post)%string.
Proof.
  revert hay. induction needle as [|c needle IH]; intros hay.
  - split; [intros _; now exists hay|intros _; now destruct hay].
  - destruct hay as [|d hay]; cbn.
    + split; [discriminate|intros [post H]; discriminate].
    + destruct (ascii_dec c d) as [->|N].
      * rewrite IH. split; intros [post H]; exists post; [now rewrite H|now inversion H].
      * split; [discriminate|intros [post H]; congruence].
Qed.

Lemma includes_iff (hay needle : string) :
  includes hay needle = true
  <-> exists pre post, hay = (pre ++ needle ++ post)%string.
Proof.
  induction hay as [|c hay IH].
  - cbn [includes]. rewrite orb_false_r, prefix_iff. split.
    + intros [post H]. now exists "", post.
    + intros [[|d pre] [post H]]; [now exists post|discriminate].
  - cbn [includes]. rewrite orb_true_iff, prefix_iff, IH. split.
    + intros [[post H]|[pre [post H]]].
      * now exists "", post.
      * exists (String c pre), post. cbn. now rewrite H.
    + intros [[|d pre] [post H]].
      * left. now exists post.
      * right. inversion H. now exists pre, post.
Qed.

(** X5.  The text probe of [acceptCookies] is a substring test on the
    lower-cased page text: for every lower-casing [lower] of the page's
    engine, it holds exactly when the text [lower] returns contains
    "cookie", "consent" or "privacy" somewhere. *)
Theorem mentionsCookies_is_a_substring_test (lower : string -> string) (t : string) :
  BasePage.mentionsCookies lower t = true
  <-> exists word pre post,
        In word ["cookie"; "consent"; "privacy"]
        /\ lower t = (pre ++ word ++ post)%string.
Proof.
  unfold BasePage.mentionsCookies.
  rewrite !orb_true_iff, !includes_iff. split.
  - intros [[(pre & post & H)|(pre & post & H)]|(pre & post & H)].
    + exists "cookie", pre, post. cbn. auto.
    + exists "consent", pre, post. cbn. auto.
    + exists "privacy", pre, post. cbn. auto.
  - intros (word & pre & post & [<-|[<-|[<-|[]]]] & H).
    + left. left. now exists pre, post.
    + left. right. now exists pre, post.
    + right. now exists pre, post.
Qed.

Lemma endsWith_iff (u s : string) :
  endsWith u s = true <-> exists pre, u = (pre ++ s)%string.
Proof.
  induction u as [|c u IH].
  - cbn [endsWith]. rewrite orb_false_r, String.eqb_eq. split.
    + intros <-. now exists "".
    + intros [[|d pre] H]; [exact H|discriminate].
  - cbn [endsWith]. rewrite orb_true_iff, String.eqb_eq, IH. split.
    + intros [<-|[pre ->]]; [now exists ""|now exists (String c pre)].
    + intros [[|d pre] H]; [now left|right]. inversion H. now exists pre.
Qed.

(** X6.  The address test of [clickAngelCardLogo] holds exactly for the
    addresses that end in "angelcard.us" or "angelcard.us/", whatever
    precedes (the platform's host included); its second pattern never
    changes the answer of the first. *)
Theorem home_address_test_reads_only_the_ending (u : string) :
  (test HomePage.homeOptionalSlash u || test HomePage.homeSlash u = true
   <-> exists pre, u = (pre ++ "angelcard.us")%string
                   \/ u = (pre ++ "angelcard.us/")%string)
  /\ test HomePage.homeOptionalSlash u || test HomePage.homeSlash u
     = test HomePage.homeOptionalSlash u.
Proof.
  split.
  - rewrite home_patterns. unfold atHome. rewrite orb_true_iff, !endsWith_iff.
    split.
    + intros [[pre H]|[pre H]]; exists pre; auto.
    + intros [pre [H|H]]; [left|right]; now exists pre.
  - destruct (test HomePage.homeSlash u) eqn:E; [|apply orb_false_r].
    rewrite orb_true_r.
    unfold HomePage.homeOptionalSlash, HomePage.homeSlash in *.
    rewrite test_DotStar in *. symmetry.
    induction u as [|c u IH]; [discriminate E|].
    cbn [test] in *. apply orb_true_iff in E. apply orb_true_iff.
    destruct E as [E|E]; [left|right; now apply IH].
    rewrite matchHere_lits_opt_end.
    rewrite (matchHere_lits_end "angelcard.us/" (String c u)
             : matchHere (lits "angelcard.us" ++ [Lit "/"; Eoi]) _ = _) in E.
    change ("angelcard.us" ++ "/")%string with "angelcard.us/".
    rewrite E. apply orb_true_r.
Qed.

(** ** Waits, clicks and navigation *)

Section Pages.
Variable B : Browser.
Variable lower : string -> string.
Implicit Types (w : World B) (l : Locator).

Lemma logged_app (a b : list Event) : logged (a ++ b) = logged a ++ logged b.
Proof.
  induction a as [|[] a IH]; cbn; rewrite ?IH; reflexivity.
Qed.

(** One run of [waitForPageLoad]. *)
Lemma waitForPageLoad_run w :
  BasePage.waitForPageLoad B w
  = match pw_waitForLoadState B (page w) "load" with
    | (Throw e, p1) =>
        (Throw e, {| page := p1; trace := trace w ++ [WaitedLoadState "load"] |})
    | (Ok _, p1) =>
        match pw_waitForSelector B p1 "body" 5000 with
        | (Ok _, p2) =>
            (Ok tt, {| page := pw_raceSelectors B p2 "nav" "header" 3000;
                       trace := trace w ++ [WaitedLoadState "load"; WaitedSelector "body";
                                            Raced "nav" "header"] |})
        | (Throw _, p2) =>
            (Ok tt, {| page := p2;
                       trace := trace w ++ [WaitedLoadState "load"; WaitedSelector "body";
                                            Logged (WARN, "Could not wait for page to fully stabilize")] |})
        end
    end.
Proof.
  unfold BasePage.waitForPageLoad. rewrite bind_apply.
  unfold waitForLoadState, act at 1.
  destruct (pw_waitForLoadState B (page w) "load") as [[[]|e] p1]; [|reflexivity].
  cbv beta iota. rewrite catch_apply, bind_apply.
  unfold waitForSelector, act at 1. cbn [page].
  destruct (pw_waitForSelector B p1 "body" 5000) as [[[]|e] p2].
  - cbv beta iota. unfold raceSelectors, act. cbn. rewrite <- !app_assoc. reflexivity.
  - unfold logger.warn. rewrite log_apply. unfold after. cbn. rewrite <- !app_assoc. reflexivity.
Qed.

(** X7.  [waitForPageLoad] ends as its wait for the load event ends: it
    raises that wait's error, having waited for nothing else.  A failed
    wait for [body] is swallowed: it leaves one warning and the race for
    [nav] or [header] is not run. *)
Theorem waitForPageLoad_fails_only_with_the_load_event w :
  let load := pw_waitForLoadState B (page w) "load" in
  let body := pw_waitForSelector B (snd load) "body" 5000 in
  let r := BasePage.waitForPageLoad B w in
  fst r = fst load
  /\ calls (trace (snd r))
     = calls (trace w)
       ++ WaitedLoadState "load"
          :: (if isOk (fst load)
              then WaitedSelector "body"
                   :: (if isOk (fst body) then [Raced "nav" "header"] else [])
              else [])
  /\ logged (trace (snd r))
     = logged (trace w)
       ++ (if isOk (fst load) && negb (isOk (fst body))
           then [(WARN, "Could not wait for page to fully stabilize")]
           else [])
  /\ page (snd r)
     = if isOk (fst load)
       then if isOk (fst body)
            then pw_raceSelectors B (snd body) "nav" "header" 3000
            else snd body
       else snd load.
Proof.
  cbv zeta. rewrite waitForPageLoad_run.
  destruct (pw_waitForLoadState B (page w) "load") as [[[]|e] p1]; cbn [fst snd isOk andb].
  - destruct (pw_waitForSelector B p1 "body" 5000) as [[[]|e] p2];
      cbn [fst snd isOk negb page trace]; rewrite calls_app, logged_app;
      cbn [logged]; rewrite ?app_nil_r; repeat split; reflexivity.
  - cbn [fst snd page trace]. rewrite calls_app, logged_app. cbn [logged].
    rewrite app_nil_r. repeat split; reflexivity.
Qed.

Lemma errorsIn_app (a b : list Event) : errorsIn (a ++ b) = errorsIn a ++ errorsIn b.
Proof. apply flat_map_app. Qed.

(** What [waitForPageLoad] leaves in the trace. *)
Lemma waitForPageLoad_facts w :
  let r := BasePage.waitForPageLoad B w in
  fst r = fst (pw_waitForLoadState B (page w) "load")
  /\ calls (trace (snd r)) = calls (trace w) ++ waits (page w)
  /\ clicksIn (trace (snd r)) = clicksIn (trace w)
  /\ errorsIn (trace (snd r)) = errorsIn (trace w).
Proof.
  cbv zeta. rewrite waitForPageLoad_run. unfold waits.
  destruct (pw_waitForLoadState B (page w) "load") as [[[]|e] p1]; cbn [fst snd isOk].
  - destruct (pw_waitForSelector B p1 "body" 5000) as [[[]|e] p2];
      cbn [fst snd isOk trace]; rewrite calls_app, clicksIn_app, errorsIn_app;
      cbn; rewrite ?app_nil_r; repeat split; reflexivity.
  - cbn [trace]. rewrite calls_app, clicksIn_app, errorsIn_app.
    cbn. rewrite ?app_nil_r. repeat split; reflexivity.
Qed.

(** [await l.click(); await this.waitForPageLoad()] *)
Lemma click_wait_facts l w :
  let r := (click l;; BasePage.waitForPageLoad B) w in
  fst r = clickOutcome (page w) l
  /\ calls (trace (snd r)) = calls (trace w) ++ clickCalls (page w) l
  /\ clicksIn (trace (snd r)) = clicksIn (trace w) ++ [l]
  /\ errorsIn (trace (snd r)) = errorsIn (trace w).
Proof.
  cbv zeta. rewrite bind_apply, click_apply. unfold clickOutcome, clickCalls.
  destruct (pw_click B (page w) l) as [[[]|e] p1]; cbn [fst snd isOk].
  - match goal with |- context [BasePage.waitForPageLoad B ?w0] =>
      destruct (waitForPageLoad_facts w0) as (H1 & H2 & H3 & H4) end.
    cbn [page trace] in *. rewrite H1, H2, H3, H4.
    rewrite calls_app, clicksIn_app, errorsIn_app. cbn. rewrite <- ?app_assoc, ?app_nil_r.
    repeat split; reflexivity.
  - cbn [trace]. rewrite calls_app, clicksIn_app, errorsIn_app. cbn.
    rewrite ?app_nil_r. repeat split; reflexivity.
Qed.

(** X8.  Each of the four policy-link methods clicks its own link at
    once, without a visibility probe, and then waits for the page: it
    makes that one click and ends with the click's error or as the wait
    for the load event does. *)
Theorem policy_links_are_clicked_unprobed w :
  Forall (fun '(clickLink, link) =>
            let r := (clickLink : M (World B) unit) w in
            fst r = clickOutcome (page w) link
            /\ calls (trace (snd r)) = calls (trace w) ++ clickCalls (page w) link
            /\ clicksIn (trace (snd r)) = clicksIn (trace w) ++ [link])
         [(HomePage.clickPublicOfferLink B, HomePage.publicOfferLink);
          (HomePage.clickTermsAndConditions B, HomePage.termsAndConditionsLink);
          (HomePage.clickRefundPolicy B, HomePage.refundPolicyLink);
          (HomePage.clickShippingPolicy B, HomePage.shippingPolicyLink)].
Proof.
  repeat (constructor;
          [match goal with
           | |- context [clickCalls _ ?l] =>
               destruct (click_wait_facts l w) as (H1 & H2 & H3 & _);
               repeat split; assumption
           end|]).
  constructor.
Qed.

(** [try { m } catch (error) { logger.error(pref + error.message); throw error; }] *)
Lemma logged_rethrow {A} (m : M (World B) A) (pref : string) w :
  catch m (fun error => logger.error (pref ++ message error)%string;; raise error) w
  = match m w with
    | (Ok a, w') => (Ok a, w')
    | (Throw e, w') => (Throw e, after w' [Logged (ERROR, (pref ++ message e)%string)])
    end.
Proof.
  rewrite catch_apply. destruct (m w) as [[a|e] w']; [reflexivity|].
  unfold logger.error. rewrite bind_apply, log_apply. reflexivity.
Qed.

Lemma tryAlternatives_run selectors : forall w,
  PlatformPage.tryAlternatives B selectors w
  = let candidates := map (fun s => first (locator s)) selectors in
    let w' := after w (map Probed (scanned (page w) candidates)) in
    match find (reportsVisible (page w)) candidates with
    | Some c => (click c;; BasePage.waitForPageLoad B) w'
    | None => (Throw (Error "Could not find email login option"), w')
    end.
Proof.
  induction selectors as [|s rest IH]; intros w; cbv zeta.
  - cbn. now rewrite after_nil.
  - cbn [PlatformPage.tryAlternatives map find scanned].
    rewrite bind_apply, probe_orElse.
    destruct (reportsVisible (page w) (first (locator s))).
    + reflexivity.
    + cbv beta iota. rewrite IH. cbv zeta. cbn [page after]. rewrite after_after.
      reflexivity.
Qed.

Lemma errorsIn_probed ls : errorsIn (map Probed ls) = [].
Proof. induction ls; [reflexivity|assumption]. Qed.

Lemma errorsIn_cons e t :
  errorsIn (e :: t)
  = (match e with Logged (ERROR, msg) => [msg] | _ => [] end) ++ errorsIn t.
Proof. reflexivity. Qed.

(** The [try] block of [clickContinueWithEmail]. *)
Lemma emailCandidates_run w :
  (isVisible <- orElse (isVisible PlatformPage.continueWithEmailButton) false;;
   if isVisible : bool then
     click PlatformPage.continueWithEmailButton;;
     PlatformPage.waitForPageLoad B
   else PlatformPage.tryAlternatives B PlatformPage.alternativeSelectors) w
  = let w' := after w (map Probed (scanned (page w) emailCandidates)) in
    match find (reportsVisible (page w)) emailCandidates with
    | Some c => (click c;; BasePage.waitForPageLoad B) w'
    | None => (Throw (Error "Could not find email login option"), w')
    end.
Proof.
  rewrite bind_apply, probe_orElse. unfold emailCandidates.
  cbn [find scanned map]. cbv beta iota zeta.
  destruct (reportsVisible (page w) PlatformPage.continueWithEmailButton).
  - reflexivity.
  - rewrite tryAlternatives_run. cbv zeta. cbn [page after]. rewrite after_after.
    reflexivity.
Qed.

(** X9.  [clickContinueWithEmail] probes the email locator and then the
    seven alternatives, in order, up to the first one reported visible;
    it clicks that one, and no other, and ends with the click's error or
    as the wait for the load event does.  With none visible it raises
    "Could not find email login option".  Whatever it raises is logged
    once at ERROR level, with the error's message. *)
Theorem clickContinueWithEmail_takes_first_visible w :
  let r := PlatformPage.clickContinueWithEmail B w in
  let found := find (reportsVisible (page w)) emailCandidates in
  fst r = match found with
          | Some c => clickOutcome (page w) c
          | None => Throw (Error "Could not find email login option")
          end
  /\ calls (trace (snd r))
     = calls (trace w) ++ map Probed (scanned (page w) emailCandidates)
       ++ match found with Some c => clickCalls (page w) c | None => [] end
  /\ clicksIn (trace (snd r))
     = clicksIn (trace w) ++ match found with Some c => [c] | None => [] end
  /\ errorsIn (trace (snd r))
     = errorsIn (trace w)
       ++ match fst r with
          | Throw e => [("Error in clickContinueWithEmail: " ++ message e)%string]
          | Ok _ => []
          end.
Proof.
  cbv zeta. unfold PlatformPage.clickContinueWithEmail.
  rewrite logged_rethrow, emailCandidates_run. cbv zeta.
  generalize emailCandidates as cs. intros cs.
  destruct (find (reportsVisible (page w)) cs) as [c|].
  - match goal with |- context [(click ?l;; _) ?w0] =>
      destruct (click_wait_facts l w0) as (H1 & H2 & H3 & H4);
      destruct ((click l;; BasePage.waitForPageLoad B) w0) as [[[]|e] w1]
    end; cbn [fst snd page trace after] in *; rewrite <- H1;
      rewrite ?errorsIn_app, ?calls_app, ?clicksIn_app, H2, H3, H4,
              ?calls_app, ?errorsIn_app, ?clicksIn_app,
              ?calls_probed, ?errorsIn_probed, ?clicksIn_probed;
      cbn [errorsIn flat_map calls filter clicksIn app];
      rewrite <- ?app_assoc, ?app_nil_r; repeat split; reflexivity.
  - cbn [fst snd trace after].
    rewrite ?errorsIn_app, ?calls_app, ?clicksIn_app,
            ?calls_probed, ?errorsIn_probed, ?clicksIn_probed.
    cbn [errorsIn flat_map calls filter clicksIn app message Error].
    rewrite <- ?app_assoc, ?app_nil_r. repeat split; reflexivity.
Qed.

(** The shape shared by [clickContinueWithGoogle] and
    [clickContinueWithApple]. *)
Lemma visible_or_throw_facts (button : Locator) (missing pref : string) w :
  let r := catch
             (isVisible <- orElse (isVisible button) false;;
              if isVisible : bool then click button;; BasePage.waitForPageLoad B
              else raise (Error missing))
             (fun error => logger.error (pref ++ message error)%string;; raise error) w in
  let visible := reportsVisible (page w) button in
  fst r = (if visible then clickOutcome (page w) button else Throw (Error missing))
  /\ calls (trace (snd r))
     = calls (trace w)
       ++ Probed button :: (if visible then clickCalls (page w) button else [])
  /\ errorsIn (trace (snd r))
     = errorsIn (trace w)
       ++ match fst r with
          | Throw e => [(pref ++ message e)%string]
          | Ok _ => []
          end
  /\ (if visible then True else page (snd r) = page w).
Proof.
  cbv zeta. rewrite logged_rethrow, bind_apply, probe_orElse. cbv beta iota.
  destruct (reportsVisible (page w) button).
  - match goal with |- context [(click ?l;; _) ?w0] =>
      destruct (click_wait_facts l w0) as (H1 & H2 & H3 & H4);
      destruct ((click l;; BasePage.waitForPageLoad B) w0) as [[[]|e] w1]
    end; cbn [fst snd page trace after] in *; rewrite <- H1;
      rewrite ?errorsIn_app, ?calls_app, H2, H4, ?calls_app, ?errorsIn_app;
      cbn [errorsIn flat_map calls filter app];
      rewrite <- ?app_assoc, ?app_nil_r; repeat split; reflexivity.
  - cbn [fst snd page trace after raise Exc_M].
    rewrite ?errorsIn_app, ?calls_app.
    cbn [errorsIn flat_map calls filter app message Error].
    rewrite <- ?app_assoc, ?app_nil_r. repeat split; reflexivity.
Qed.

(** X10.  [clickContinueWithGoogle] and [clickContinueWithApple] probe
    their button once.  Reported visible, it is clicked and the page
    awaited; otherwise nothing is clicked, the page stays as it is and the
    method raises "Google (Apple) login option not found".  Whatever is
    raised is logged once at ERROR level, with the error's message. *)
Theorem social_login_clicks_only_what_is_visible w :
  Forall (fun '(clickLogin, button, provider) =>
            let r := (clickLogin : M (World B) unit) w in
            let visible := reportsVisible (page w) button in
            fst r = (if visible then clickOutcome (page w) button
                     else Throw (Error (provider ++ " login option not found")%string))
            /\ calls (trace (snd r))
               = calls (trace w)
                 ++ Probed button :: (if visible then clickCalls (page w) button else [])
            /\ errorsIn (trace (snd r))
               = errorsIn (trace w)
                 ++ match fst r with
                    | Throw e => [("Error in clickContinueWith" ++ provider ++ ": "
                                   ++ message e)%string]
                    | Ok _ => []
                    end
            /\ (if visible then True else page (snd r) = page w))
         [(PlatformPage.clickContinueWithGoogle B,
           PlatformPage.continueWithGoogleButton, "Google");
          (PlatformPage.clickContinueWithApple B,
           PlatformPage.continueWithAppleButton, "Apple")].
Proof.
  constructor; [|constructor; [|constructor]].
  - exact (visible_or_throw_facts PlatformPage.continueWithGoogleButton
             "Google login option not found" "Error in clickContinueWithGoogle: " w).
  - exact (visible_or_throw_facts PlatformPage.continueWithAppleButton
             "Apple login option not found" "Error in clickContinueWithApple: " w).
Qed.

Lemma goto_apply u w :
  Playwright.goto u w
  = (fst (pw_goto B (page w) u),
     {| page := snd (pw_goto B (page w) u); trace := trace w ++ [Goto u] |}).
Proof. unfold Playwright.goto, act. now destruct (pw_goto B (page w) u). Qed.

(** [await this.goto('/'); await this.waitForPageLoad()] *)
Lemma goto_wait_facts (baseURL : string) w :
  let address := (baseURL ++ "/")%string in
  let r := (BasePage.goto B baseURL "/";; BasePage.waitForPageLoad B) w in
  let g := pw_goto B (page w) address in
  fst r = match fst g with
          | Throw e => Throw e
          | Ok _ => fst (pw_waitForLoadState B (snd g) "load")
          end
  /\ calls (trace (snd r))
     = calls (trace w) ++ Goto address :: (if isOk (fst g) then waits (snd g) else [])
  /\ (if isOk (fst g) then True else page (snd r) = snd g).
Proof.
  cbv zeta. unfold BasePage.goto. rewrite bind_apply, goto_apply.
  destruct (pw_goto B (page w) (baseURL ++ "/")%string) as [[[]|e] p1]; cbn [fst snd isOk].
  - match goal with |- context [BasePage.waitForPageLoad B ?w0] =>
      destruct (waitForPageLoad_facts w0) as (H1 & H2 & H3 & H4) end.
    cbn [page trace] in *. rewrite H1, H2, calls_app.
    cbn [calls filter]. rewrite <- app_assoc. repeat split; reflexivity.
  - cbn [page trace]. rewrite calls_app. repeat split; reflexivity.
Qed.

(** X11.  [navigateToHomePage] opens "https://www.angelcard.us/" and
    [navigateToPlatform] "https://platform.angelcard.us/" (the base URL of
    the constructor, then "/").  A failed [goto] is raised at once, with
    no wait; otherwise the method ends as the wait for the load event
    does. *)
Theorem navigation_opens_the_site_root w :
  Forall (fun '(navigate, address) =>
            let r := (navigate : M (World B) unit) w in
            let g := pw_goto B (page w) address in
            fst r = match fst g with
                    | Throw e => Throw e
                    | Ok _ => fst (pw_waitForLoadState B (snd g) "load")
                    end
            /\ calls (trace (snd r))
               = calls (trace w)
                 ++ Goto address :: (if isOk (fst g) then waits (snd g) else [])
            /\ (if isOk (fst g) then True else page (snd r) = snd g))
         [(HomePage.navigateToHomePage B, "https://www.angelcard.us/");
          (PlatformPage.navigateToPlatform B, "https://platform.angelcard.us/")].
Proof.
  constructor; [|constructor; [|constructor]].
  - exact (goto_wait_facts HomePage.baseURL w).
  - exact (goto_wait_facts PlatformPage.baseURL w).
Qed.

(** X12.  The [beforeEach] hook of the home-page tests never fails.  If
    the navigation or the screenshot fails, the error is logged at ERROR
    level and cookie handling is not attempted; otherwise the hook goes on
    exactly as [PlatformPage.handleCookieConsent] does. *)
Theorem beforeEach_never_fails (now : nat) w :
  let nav := HomePage.navigateToHomePage B
               (after w [Logged (INFO, "Starting home page navigation test")]) in
  let path := ("./ui/reports/screenshots/before-test-" ++ decimal now ++ ".png")%string in
  let shown :=
    after (snd nav)
          [ReadUrl;
           Logged (INFO, ("Navigated to page with URL: "
                          ++ pw_url B (page (snd nav)))%string);
           Screenshot path] in
  Tests.beforeEach B lower now w
  = (Ok tt,
     match fst nav with
     | Throw e =>
         after (snd nav) [Logged (ERROR, ("Error in beforeEach: " ++ message e)%string)]
     | Ok _ =>
         match pw_screenshot B (page (snd nav)) path with
         | Throw e =>
             after shown [Logged (ERROR, ("Error in beforeEach: " ++ message e)%string)]
         | Ok _ => snd (PlatformPage.handleCookieConsent B lower shown)
         end
     end).
Proof.
  cbv zeta. unfold Tests.beforeEach, logger.info.
  rewrite bind_apply, log_apply. cbv beta iota.
  rewrite catch_apply, bind_apply.
  destruct (HomePage.navigateToHomePage B _) as [[[]|e] w1]; cbn [fst snd].
  2:{ unfold logger.error. rewrite log_apply. reflexivity. }
  rewrite bind_apply. unfold url, probe at 1. cbv beta iota.
  rewrite bind_apply, log_apply. cbv beta iota.
  rewrite bind_apply. unfold screenshot, probe. cbn [page after record].
  destruct (pw_screenshot B (page w1) _) as [[]|e].
  2:{ unfold logger.error. rewrite log_apply. f_equal. tidy. }
  cbv beta iota.
  change (catch (BasePage.acceptCookies B lower) _) with (PlatformPage.handleCookieConsent B lower).
  replace (record _ (after (record ReadUrl w1) _)) with
    (after w1 [ReadUrl;
               Logged (INFO, ("Navigated to page with URL: " ++ pw_url B (page w1))%string);
               Screenshot ("./ui/reports/screenshots/before-test-" ++ decimal now ++ ".png")%string])
    by tidy.
  destruct (handleCookieConsent_run B lower (after w1 [ReadUrl;
               Logged (INFO, ("Navigated to page with URL: " ++ pw_url B (page w1))%string);
               Screenshot ("./ui/reports/screenshots/before-test-" ++ decimal now ++ ".png")%string]))
    as (p' & events & -> & _).
  reflexivity.
Qed.

(** X13.  [BasePage.acceptCookies], for every page: it raises exactly
    when its screenshot or its reading of the page text fails, and then
    has clicked nothing and called nothing else; no failure of a strategy
    gets out.  It clicks at most once: the target of the selected
    strategy, when the lower-cased text mentions cookies. *)
Theorem acceptCookies_raises_only_before_the_strategies w :
  let r := BasePage.acceptCookies B lower w in
  let shot_taken := pw_screenshot B (page w) shot in
  let text := pw_innerText B (page w) in
  fst r = match shot_taken with
          | Throw e => Throw e
          | Ok _ => match text with Throw e => Throw e | Ok _ => Ok tt end
          end
  /\ clicksIn (trace (snd r))
     = clicksIn (trace w)
       ++ match shot_taken, text with
          | Ok _, Ok t =>
              if BasePage.mentionsCookies lower t then clickOf (selected (page w)) else []
          | _, _ => []
          end
  /\ match fst r with
     | Throw _ =>
         page (snd r) = page w
         /\ calls (trace (snd r))
            = calls (trace w)
              ++ Screenshot shot :: (if isOk shot_taken then [Evaluated] else [])
     | Ok _ => True
     end.
Proof.
  cbv zeta.
  destruct (pw_screenshot B (page w) shot) as [[]|e1] eqn:Hs.
  2:{ rewrite (acceptCookies_screenshot_fails B lower w e1 Hs). cbn [fst snd page trace after isOk].
      rewrite clicksIn_app, calls_app. cbn. rewrite app_nil_r. repeat split; reflexivity. }
  destruct (pw_innerText B (page w)) as [t|e2] eqn:Ht.
  2:{ rewrite (acceptCookies_probe_fails B lower w e2 Hs Ht). cbn [fst snd page trace after isOk].
      rewrite clicksIn_app, calls_app. cbn. rewrite app_nil_r. repeat split; reflexivity. }
  destruct (BasePage.mentionsCookies lower t) eqn:Hm.
  - rewrite (acceptCookies_strategies B lower w t Hs Ht Hm). cbn [fst snd page trace].
    rewrite !clicksIn_app, clicksIn_cons, clicksIn_strategyTrace. cbn.
    repeat split; reflexivity.
  - rewrite (acceptCookies_silent B lower w t Hs Ht Hm). cbn [fst snd page trace after].
    rewrite !clicksIn_app. cbn. rewrite app_nil_r. repeat split; reflexivity.
Qed.

Lemma existsb_filter {A} (f g : A -> bool) (xs : list A) :
  existsb f (filter g xs) = existsb (fun x => g x && f x) xs.
Proof.
  induction xs as [|x xs IH]; [reflexivity|].
  cbn. destruct (g x); cbn; now rewrite IH.
Qed.

(** The test's guard, read off the page: of the eight registry entries
    only "Email" and "Email Form" satisfy it. *)
Lemma hasEmailOption_visibleOptions (p : Page B) :
  Tests.hasEmailOption (visibleOptions p)
  = reportsVisible p PlatformPage.continueWithEmailButton
    || reportsVisible p (first (locator (dq "form input[type='email']"))).
Proof.
  unfold Tests.hasEmailOption, visibleOptions. rewrite existsb_filter.
  unfold registry, PlatformPage.otherOptions.
  cbn [existsb map fst snd PlatformPage.name PlatformPage.element].
  repeat match goal with
         | |- context [includes ?a ?b] =>
             let v := eval vm_compute in (includes a b) in
             change (includes a b) with v
         | |- context [String.eqb ?a ?b] =>
             let v := eval vm_compute in (String.eqb a b) in
             change (String.eqb a b) with v
         end.
  cbn [orb]. rewrite ?andb_false_r, ?andb_true_r, ?orb_false_r, ?orb_false_l.
  reflexivity.
Qed.

(** X14.  The guard of the email test is enough for the click: when
    [hasEmailOption] holds of the options [getVisibleLoginOptions]
    returned, [clickContinueWithEmail] on the page it left finds a
    candidate reported visible (the email button, else the form's email
    input), clicks it, and ends as that click and the wait do, never with
    its own "Could not find email login option". *)
Theorem email_guard_finds_a_candidate w (opts : list PlatformPage.LoginOption) w1 :
  PlatformPage.getVisibleLoginOptions B w = (Ok opts, w1) ->
  Tests.hasEmailOption opts = true ->
  let form := first (locator (dq "form input[type='email']")) in
  let c := if reportsVisible (page w) PlatformPage.continueWithEmailButton
           then PlatformPage.continueWithEmailButton else form in
  let r := PlatformPage.clickContinueWithEmail B w1 in
  reportsVisible (page w1) c = true
  /\ fst r = clickOutcome (page w1) c
  /\ clicksIn (trace (snd r)) = clicksIn (trace w1) ++ [c].
Proof.
  rewrite getVisibleLoginOptions_run. intros [= <- <-].
  rewrite hasEmailOption_visibleOptions. intros H. cbv zeta.
  unfold PlatformPage.clickContinueWithEmail.
  rewrite logged_rethrow, emailCandidates_run. cbv zeta. cbn [page after].
  assert (F : find (reportsVisible (page w)) emailCandidates
              = Some (if reportsVisible (page w) PlatformPage.continueWithEmailButton
                      then PlatformPage.continueWithEmailButton
                      else first (locator (dq "form input[type='email']")))).
  { unfold emailCandidates, PlatformPage.alternativeSelectors. cbn [find map].
    destruct (reportsVisible (page w) PlatformPage.continueWithEmailButton); [reflexivity|].
    cbn [orb] in H. rewrite H. reflexivity. }
  rewrite F.
  set (c := if reportsVisible (page w) PlatformPage.continueWithEmailButton
            then _ else _) in *.
  assert (V : reportsVisible (page w) c = true).
  { apply find_some in F. apply F. }
  match goal with |- context [(click ?l;; _) ?w0] =>
    destruct (click_wait_facts l w0) as (H1 & H2 & H3 & H4);
    destruct ((click l;; BasePage.waitForPageLoad B) w0) as [[[]|e] w2]
  end; cbn [fst snd page trace after] in *; rewrite <- H1;
    rewrite ?clicksIn_app, H3, ?clicksIn_app, ?clicksIn_probed;
    cbn [clicksIn flat_map app]; rewrite ?app_nil_r; repeat split; try reflexivity;
    exact V.
Qed.

Lemma clickFirstVisible_run buttons : forall w,
  HomePage.clickFirstVisible B buttons w
  = let w' := after w (map Probed (scanned (page w) buttons)) in
    match find (reportsVisible (page w)) buttons with
    | Some c => (click c;; BasePage.waitForPageLoad B) w'
    | None => (Throw (Error "Enter Platform button not found on page"), w')
    end.
Proof.
  induction buttons as [|b rest IH]; intros w; cbv zeta.
  - cbn. now rewrite after_nil.
  - cbn [HomePage.clickFirstVisible find scanned map].
    rewrite bind_apply, probe_orElse.
    destruct (reportsVisible (page w) b).
    + reflexivity.
    + cbv beta iota. rewrite IH. cbv zeta. cbn [page after]. rewrite after_after.
      reflexivity.
Qed.

Lemma existsb_find {A} (f : A -> bool) (xs : list A) :
  existsb f xs = match find f xs with Some _ => true | None => false end.
Proof. induction xs as [|x xs IH]; [reflexivity|]. cbn. now destruct (f x). Qed.

(** X15.  [clickEnterPlatform] on an object with an
    [enterPlatformButton] clicks it without a probe.  Only an object
    without one probes [possibleButtons], clicking the first reported
    visible; there it finds a button exactly when
    [isEnterPlatformButtonVisible] answers [true]. *)
Theorem clickEnterPlatform_probes_only_without_a_button (this : HomePage.HomePage) w :
  let r := HomePage.clickEnterPlatform B this w in
  let found := find (reportsVisible (page w)) HomePage.possibleButtons in
  match HomePage.enterPlatformButton this with
  | Some button =>
      fst r = clickOutcome (page w) button
      /\ calls (trace (snd r)) = calls (trace w) ++ clickCalls (page w) button
  | None =>
      fst r = match found with
              | Some c => clickOutcome (page w) c
              | None => Throw (Error "Enter Platform button not found on page")
              end
      /\ calls (trace (snd r))
         = calls (trace w) ++ map Probed (scanned (page w) HomePage.possibleButtons)
           ++ match found with Some c => clickCalls (page w) c | None => [] end
      /\ fst (HomePage.isEnterPlatformButtonVisible B w)
         = Ok (match found with Some _ => true | None => false end)
  end.
Proof.
  cbv zeta. unfold HomePage.clickEnterPlatform.
  destruct (HomePage.enterPlatformButton this) as [button|].
  - unfold HomePage.waitForPageLoad.
    destruct (click_wait_facts button w) as (H1 & H2 & _). split; assumption.
  - unfold HomePage.isEnterPlatformButtonVisible.
    rewrite anyButtonVisible_scan, clickFirstVisible_run, existsb_find. cbv zeta.
    generalize HomePage.possibleButtons as cs. intros cs.
    destruct (find (reportsVisible (page w)) cs) as [c|].
    + match goal with |- context [(click ?l;; _) ?w0] =>
        destruct (click_wait_facts l w0) as (H1 & H2 & H3 & H4) end.
      cbn [fst snd page trace after] in *. rewrite H1, H2, calls_app, calls_probed.
      rewrite <- app_assoc. repeat split; reflexivity.
    + cbn [fst snd trace after]. rewrite calls_app, calls_probed, app_nil_r.
      repeat split; reflexivity.
Qed.

End Pages.

(** A page with only a bare email input: "Email Form" is listed, and the
    input is what gets clicked. *)
Lemma email_guard_finds_a_candidate_witness :
  let form := first (locator (dq "form input[type='email']")) in
  let listed := PlatformPage.getVisibleLoginOptions Scripted.browser
                  (Scripted.start Examples.emailInput) in
  let r := PlatformPage.clickContinueWithEmail Scripted.browser (snd listed) in
  fst listed = Ok [{| PlatformPage.name := "Email Form"; PlatformPage.element := form |}]
  /\ fst r = Ok tt
  /\ clicksIn (trace (snd r)) = [form].
Proof.
  cbv zeta.
  destruct (email_guard_finds_a_candidate Scripted.browser
              (Scripted.start Examples.emailInput)
              [{| PlatformPage.name := "Email Form";
                  PlatformPage.element := first (locator (dq "form input[type='email']")) |}]
              (snd (PlatformPage.getVisibleLoginOptions Scripted.browser
                      (Scripted.start Examples.emailInput))))
    as (V & O & C).
  - vm_compute. reflexivity.
  - vm_compute. reflexivity.
  - split; [vm_compute; reflexivity|]. split.
    + rewrite O. vm_compute. reflexivity.
    + rewrite C. vm_compute. reflexivity.
Defined.

(** ** [BasePage.isVisible] on the scripted browser *)

Lemma scripted_reportsVisible (p : Scripted.Page) (l : Locator) :
  @reportsVisible Scripted.browser p l
  = match Scripted.resolve p l with
    | [e] => Scripted.shown e
    | _ => false
    end.
Proof.
  unfold reportsVisible. cbn [pw_isVisible Scripted.browser]. unfold Scripted.isVisible.
  destruct (Scripted.resolve p l) as [|e [|e' es]]; [reflexivity| |reflexivity].
  now destruct (Scripted.shown e).
Qed.

Lemma existsb_by_index (es : list Scripted.ElementState) (f : nat -> Locator)
      (p : Scripted.Page) : forall k,
  (forall i, Scripted.resolve p (f (k + i)) = firstn 1 (skipn i es)) ->
  existsb (@reportsVisible Scripted.browser p) (map f (seq k (length es)))
  = existsb Scripted.shown es.
Proof.
  induction es as [|e es IH]; intros k H; [reflexivity|].
  cbn [length seq map existsb]. f_equal.
  - rewrite scripted_reportsVisible. specialize (H 0). rewrite Nat.add_0_r in H.
    rewrite H. reflexivity.
  - apply IH. intros i. replace (S k + i) with (k + S i) by now rewrite Nat.add_succ_r.
    rewrite H. reflexivity.
Qed.

(** X16.  On the scripted browser, whose [isVisible] fails on a locator
    that resolves to several elements, [BasePage.isVisible] answers for
    every page and locator, and answers [true] exactly when one of the
    elements the locator resolves to is shown. *)
Theorem isVisible_finds_any_shown_match
        (p : Scripted.Page) (l : Locator) (t : list Event) :
  fst (BasePage.isVisible Scripted.browser l (@Build_World Scripted.browser p t))
  = Ok (existsb Scripted.shown (Scripted.resolve p l)).
Proof.
  rewrite isVisible_run. cbn [page pw_count Scripted.browser]. cbv zeta.
  destruct (Scripted.resolve p l) as [|e [|e' es]] eqn:E.
  - reflexivity.
  - cbn [length Nat.ltb Nat.leb Nat.eqb fst]. rewrite scripted_reportsVisible, E.
    cbn. now rewrite orb_false_r.
  - cbn [length Nat.ltb Nat.leb fst]. f_equal.
    change (S (S (length es))) with (length (e :: e' :: es)).
    apply existsb_by_index. intros i. cbn [Nat.add Scripted.resolve]. now rewrite E.
Qed.
